(** * Network threat monitoring core of [app.py]

    A shallow embedding of the in-process core of [app.py]: the
    [NetworkMonitor] class (traffic scoring and alert generation), the request
    handlers that drive it, and the body of the background monitor.

    Conventions.
    - JSON payloads are Python dicts: finite maps from strings to dynamically
      typed values ([pyval]).  The universe of values covers [None], booleans,
      integers, strings and lists of integers; floats and nested containers
      are left out.
    - [datetime] values are counted in microseconds ([Z]); the ISO string
      stored in a dict and read back by [datetime.fromisoformat] is the same
      instant, so the round trip through the string is not represented.
    - Module-level globals ([network_monitor], the cache behind
      [cache_manager]) live in one [World]; a handler is a function from
      [World] to a new [World] and a result, and an exception keeps the
      mutations done before it was raised.
    - [models.py] and [cache_manager.py] are not part of the sources.  Calls
      to the database models and to the pub/sub channel are logged in
      [calls]; what they answer is a parameter ([Env]), and the analysis
      path is given a second time with collaborators that may raise (module
      [Raising]).  The key/value cache is modelled from the specification
      (module [CacheManager]). *)

From Stdlib Require Import ZArith String Ascii List Bool Lia.
From stdpp Require Import gmap strings list fin_maps pretty.
Import ListNotations.

Local Open Scope string_scope.
Local Open Scope list_scope.
Local Open Scope Z_scope.

(** ** Python values *)

(** The JSON values of the model: [null], booleans, integers, strings and
    lists of integers.  JSON floats and nested objects are not modelled; a
    statement about every observation is about every observation built from
    these kinds. *)
Inductive pyval :=
| PNone
| PBool (b : bool)
| PInt (z : Z)
| PStr (s : string)
| PList (l : list Z).

(** A JSON object as [request.get_json()] returns it. *)
Abbreviation pydict := (gmap string pyval).

(** Truth testing ([if v:], [a and b]). *)
Definition truthy (v : pyval) : bool :=
  match v with
  | PNone => false
  | PBool b => b
  | PInt z => negb (z =? 0)
  | PStr s => negb (String.eqb s "")
  | PList l => match l with [] => false | _ => true end
  end.

(** [d.get(k)] and [d.get(k, default)]. *)
Definition py_get (d : pydict) (k : string) : pyval := default PNone (d !! k).
Definition py_get_default (d : pydict) (k : string) (dflt : pyval) : pyval :=
  default dflt (d !! k).

(** [if d:] on a dict: false exactly on the empty dict. *)
Definition dict_truthy (d : pydict) : bool :=
  match map_to_list d with [] => false | _ => true end.

(** The exceptions of the program: three that its own expressions raise, and
    whatever a collaborator outside [app.py] raises. *)
Inductive exn := TypeError | AttributeError | KeyError | CollaboratorError.

Inductive result (A : Type) :=
| Ok (a : A)
| Raise (e : exn).
Arguments Ok {A} a.
Arguments Raise {A} e.

(** [v > n] for an integer literal [n]: booleans compare as 0/1, anything
    else than a number raises [TypeError]. *)
Definition py_gt (v : pyval) (n : Z) : result bool :=
  match v with
  | PInt z => Ok (n <? z)
  | PBool b => Ok (n <? (if b then 1 else 0))
  | PNone | PStr _ | PList _ => Raise TypeError
  end.

(** [d[k]]. *)
Definition py_index (d : pydict) (k : string) : result pyval :=
  match d !! k with
  | Some v => Ok v
  | None => Raise KeyError
  end.

(** [str(v)], as an f-string renders a value. *)
Definition py_str (v : pyval) : string :=
  match v with
  | PNone => "None"
  | PBool true => "True"
  | PBool false => "False"
  | PInt z => pretty z
  | PStr s => s
  | PList l => "[" +:+ String.concat ", " (map pretty l) +:+ "]"
  end.

(** ** Data model *)

(** The dict built by [analyze_traffic]. *)
Record Analysis := {
  timestamp : Z;
  risk_score : Z;
  threats_detected : list string;
  recommendations : list string
}.

(** An element of [NetworkMonitor.alerts]. *)
Record Alert := {
  alert_id : Z;
  alert_timestamp : Z;
  alert_severity : string;
  alert_type : string;
  alert_description : string;
  alert_source_ip : pyval;
  alert_destination_ip : pyval;
  alert_status : string
}.

Definition set_status (a : Alert) (s : string) : Alert :=
  {| alert_id := alert_id a;
     alert_timestamp := alert_timestamp a;
     alert_severity := alert_severity a;
     alert_type := alert_type a;
     alert_description := alert_description a;
     alert_source_ip := alert_source_ip a;
     alert_destination_ip := alert_destination_ip a;
     alert_status := s |}.

(** The argument of [generate_alert]: a dict read only through [.get]. *)
Record AlertData := {
  ad_severity : option string;
  ad_type : option string;
  ad_description : option string;
  ad_source_ip : option pyval;
  ad_destination_ip : option pyval
}.

(** The dict handed to [SecurityEvent.create_event] by [generate_alert]. *)
Record Event := {
  event_type : string;
  event_severity : string;
  event_source_ip : pyval;
  event_destination_ip : pyval;
  event_risk_score : Z;
  event_metadata : AlertData
}.

(** The dict handed to [NetworkAnalytics.record_metric]. *)
Record Metric := {
  metric_name : string;
  metric_value : Z;
  metric_unit : string;
  metric_source : string;
  metric_tag_source_ip : pyval
}.

(** [NetworkMonitor.network_stats]. *)
Record Stats := {
  total_connections : Z;
  suspicious_connections : Z;
  blocked_attempts : Z;
  last_updated : Z
}.

Definition set_last_updated (s : Stats) (t : Z) : Stats :=
  {| total_connections := total_connections s;
     suspicious_connections := suspicious_connections s;
     blocked_attempts := blocked_attempts s;
     last_updated := t |}.

(** An element of [NetworkMonitor.threat_indicators]. *)
Record Indicator := {
  ind_id : Z;
  ind_timestamp : Z;
  ind_type : pyval;
  ind_value : pyval;
  ind_description : pyval;
  ind_confidence : pyval;
  ind_active : bool
}.

(** ** Collaborators *)

(** Outbound calls to the database models, the pub/sub channel and the
    indicator lookup, in the order the program issues them. *)
Inductive Call :=
| check_threat_indicator_call (ip : pyval)
| record_metric_call (m : Metric)
| create_event_call (e : Event)
| publish_event_call (channel : string) (a : Alert)
| add_indicator_call (d : pydict).

(** What is fixed at start-up and what the collaborators answer.
    - [cache_manager]: truth value of the module-level [cache_manager]
      (constructed unconditionally at line 33, tested before each use).
    - [db_manager]: whether [DATABASE_URL] is set; [security_event],
      [network_analytics] and [threat_intelligence] exist exactly then.
    - [threat_lookup ip]: truth value of what
      [cache_manager.check_threat_indicator(ip)] returns, i.e. the indicator
      snapshot the lookup reads.
    - [collab_ok c]: truth value of what the collaborator returns for [c]
      when it returns (falsy for a write or a publish it could not carry
      out).
    - [stats_ttl], [indicators_ttl]: lifetime of a cached entry in
      microseconds. *)
Record Env := {
  cache_manager : bool;
  db_manager : bool;
  threat_lookup : pyval -> bool;
  collab_ok : Call -> bool;
  stats_ttl : Z;
  indicators_ttl : Z
}.

Definition security_event (env : Env) : bool := db_manager env.
Definition network_analytics (env : Env) : bool := db_manager env.
Definition threat_intelligence (env : Env) : bool := db_manager env.

(** ** The key/value cache *)

Module CacheManager.

Inductive value :=
| stats_value (s : Stats)
| indicators_value (l : list Indicator).

(** Modelled from the spec: the cache backend behind [cache_manager.py]
    (not part of the sources).  A key/value store whose entries carry an
    expiry time; when the backend is unreachable a read finds nothing, a
    write is a no-op and both report it through their return value. *)
Record t := {
  reachable : bool;
  entries : gmap string (Z * value)
}.

Definition stats_key : string := "network:stats".
Definition indicators_key : string := "threat:indicators".

(** Modelled from the spec: glob-style key patterns, [*] matching any run
    of characters and [?] any single one. *)
Fixpoint glob (p : list ascii) : list ascii -> bool :=
  match p with
  | [] => fun s => match s with [] => true | _ => false end
  | c :: p' =>
      if Ascii.eqb c "*" then
        fix star (s : list ascii) : bool :=
          glob p' s || match s with [] => false | _ :: s' => star s' end
      else if Ascii.eqb c "?" then
        fun s => match s with [] => false | _ :: s' => glob p' s' end
      else
        fun s => match s with [] => false | d :: s' => Ascii.eqb c d && glob p' s' end
  end.

Definition glob_match (pattern key : string) : bool :=
  glob (list_ascii_of_string pattern) (list_ascii_of_string key).

(** Modelled from the spec: a read returns the value of a live entry and
    nothing on a miss, on an expired entry or when the backend is down. *)
Definition get (c : t) (key : string) (now : Z) : option value :=
  if reachable c then
    match entries c !! key with
    | Some (expires, v) => if now <? expires then Some v else None
    | None => None
    end
  else None.

(** Modelled from the spec: a write stores the value with its lifetime and
    returns whether it was stored. *)
Definition set (c : t) (key : string) (v : value) (now ttl : Z) : t * bool :=
  if reachable c then
    ({| reachable := true; entries := <[key := (now + ttl, v)]> (entries c) |}, true)
  else (c, false).

(** Modelled from the spec: [clear_cache(pattern)] removes every entry
    whose key matches the pattern and returns success or failure. *)
Definition clear_cache (c : t) (pattern : string) : t * bool :=
  if reachable c then
    ({| reachable := true;
        entries := filter (fun kv => glob_match pattern kv.1 = false) (entries c) |},
     true)
  else (c, false).

Definition get_network_stats (c : t) (now : Z) : option Stats :=
  match get c stats_key now with
  | Some (stats_value s) => Some s
  | _ => None
  end.

Definition get_threat_indicators (c : t) (now : Z) : list Indicator :=
  match get c indicators_key now with
  | Some (indicators_value l) => l
  | _ => []
  end.

End CacheManager.

(** ** Program state *)

Record World := {
  alerts : list Alert;                  (* network_monitor.alerts *)
  threat_indicators : list Indicator;   (* network_monitor.threat_indicators *)
  network_stats : Stats;                (* network_monitor.network_stats *)
  cache : CacheManager.t;
  calls : list Call;
  clock : Z
}.

Definition set_alerts (l : list Alert) (w : World) : World :=
  {| alerts := l; threat_indicators := threat_indicators w;
     network_stats := network_stats w; cache := cache w;
     calls := calls w; clock := clock w |}.

Definition set_threat_indicators (l : list Indicator) (w : World) : World :=
  {| alerts := alerts w; threat_indicators := l;
     network_stats := network_stats w; cache := cache w;
     calls := calls w; clock := clock w |}.

Definition set_network_stats (s : Stats) (w : World) : World :=
  {| alerts := alerts w; threat_indicators := threat_indicators w;
     network_stats := s; cache := cache w;
     calls := calls w; clock := clock w |}.

Definition set_cache (c : CacheManager.t) (w : World) : World :=
  {| alerts := alerts w; threat_indicators := threat_indicators w;
     network_stats := network_stats w; cache := c;
     calls := calls w; clock := clock w |}.

Definition set_calls (l : list Call) (w : World) : World :=
  {| alerts := alerts w; threat_indicators := threat_indicators w;
     network_stats := network_stats w; cache := cache w;
     calls := l; clock := clock w |}.

Definition set_clock (t : Z) (w : World) : World :=
  {| alerts := alerts w; threat_indicators := threat_indicators w;
     network_stats := network_stats w; cache := cache w;
     calls := calls w; clock := t |}.

(** ** Effects: state and exceptions *)

Definition M (A : Type) : Type := World -> World * result A.

Definition ret {A} (a : A) : M A := fun w => (w, Ok a).

Definition bind {A B} (m : M A) (k : A -> M B) : M B :=
  fun w =>
    match m w with
    | (w', Ok a) => k a w'
    | (w', Raise e) => (w', Raise e)
    end.

Notation "x <- m ;; k" := (bind m (fun x => k))
  (at level 100, m at next level, right associativity).
Notation "m ;;; k" := (bind m (fun _ => k))
  (at level 100, right associativity).

Definition lift {A} (r : result A) : M A := fun w => (w, r).
Definition raise {A} (e : exn) : M A := fun w => (w, Raise e).
Definition get_world : M World := fun w => (w, Ok w).
Definition modify (f : World -> World) : M unit := fun w => (f w, Ok tt).

(** [try: body except Exception: handler]. *)
Definition try_except {A} (body : M A) (handler : exn -> M A) : M A :=
  fun w =>
    match body w with
    | (w', Ok a) => (w', Ok a)
    | (w', Raise e) => handler e w'
    end.

(** [if c: body] for a body run for its effect. *)
Definition when (c : bool) (body : M unit) : M unit :=
  if c then body else ret tt.

(** [datetime.now()]. *)
Definition py_now : M Z := fun w => (w, Ok (clock w)).

(** [time.sleep(seconds)]. *)
Definition py_sleep (seconds : Z) : M unit :=
  modify (fun w => set_clock (clock w + seconds * 1000000) w).

(** Modelled from the spec: a call to a database model or to the pub/sub
    channel ([models.py] and [cache_manager.py] are not part of the sources),
    in a run where the collaborator returns, as the specification has it
    absorb its own failures.  The call is logged in [calls] and answered by
    the environment; the analysis and the alert creation read none of these
    answers.  The runs in which a collaborator raises instead are those of
    the module [Raising] below. *)
Definition call (env : Env) (c : Call) : M bool :=
  fun w => (set_calls (calls w ++ [c]) w, Ok (collab_ok env c)).

(** Modelled from the spec: [cache_manager.check_threat_indicator(ip)], a
    read-only lookup in the indicator snapshot; it is logged in [calls] and
    answered by the environment. *)
Definition check_threat_indicator (env : Env) (ip : pyval) : M bool :=
  fun w => (set_calls (calls w ++ [check_threat_indicator_call ip]) w,
            Ok (threat_lookup env ip)).

(** ** NetworkMonitor *)

Definition add_finding (analysis : Analysis) (score : Z)
    (threat recommendation : string) : Analysis :=
  {| timestamp := timestamp analysis;
     risk_score := risk_score analysis + score;
     threats_detected := threats_detected analysis ++ [threat];
     recommendations := recommendations analysis ++ [recommendation] |}.

(** [analyze_traffic], lines 55-84: the four rules. *)
Definition score_traffic (env : Env) (traffic_data : pydict) : M Analysis :=
  now <- py_now ;;
  let analysis :=
    {| timestamp := now; risk_score := 0;
       threats_detected := []; recommendations := [] |} in
  analysis <-
    (if cache_manager env && truthy (py_get traffic_data "source_ip") then
       ip <- lift (py_index traffic_data "source_ip") ;;
       threat_check <- check_threat_indicator env ip ;;
       if threat_check then
         ip <- lift (py_index traffic_data "source_ip") ;;
         ret (add_finding analysis 80 ("Known threat IP: " +:+ py_str ip)
                "Block IP immediately")
       else ret analysis
     else ret analysis) ;;
  high_volume <-
    lift (py_gt (py_get_default traffic_data "connection_count" (PInt 0)) 1000) ;;
  let analysis :=
    if high_volume then
      add_finding analysis 30 "High connection volume"
        "Investigate source IP for DDoS activity"
    else analysis in
  failed_auth <-
    lift (py_gt (py_get_default traffic_data "failed_auth_attempts" (PInt 0)) 10) ;;
  let analysis :=
    if failed_auth then
      add_finding analysis 50 "Multiple failed authentication attempts"
        "Implement rate limiting and block suspicious IPs"
    else analysis in
  let analysis :=
    if truthy (py_get_default traffic_data "unusual_ports" (PList [])) then
      add_finding analysis 20 "Unusual port activity detected"
        "Review firewall rules and port access"
    else analysis in
  ret analysis.

(** [analyze_traffic], lines 86-94: the analysis is stored as a metric. *)
Definition store_analysis (env : Env) (traffic_data : pydict)
    (analysis : Analysis) : M unit :=
  when (network_analytics env)
    (call env (record_metric_call
       {| metric_name := "traffic_analysis_risk_score";
          metric_value := risk_score analysis;
          metric_unit := "score";
          metric_source := "network_monitor";
          metric_tag_source_ip :=
            py_get_default traffic_data "source_ip" (PStr "unknown") |}) ;;;
     ret tt).

Definition analyze_traffic (env : Env) (traffic_data : pydict) : M Analysis :=
  analysis <- score_traffic env traffic_data ;;
  store_analysis env traffic_data analysis ;;;
  ret analysis.

Definition generate_alert (env : Env) (alert_data : AlertData) : M Alert :=
  w <- get_world ;;
  now <- py_now ;;
  let alert :=
    {| alert_id := Z.of_nat (length (alerts w)) + 1;
       alert_timestamp := now;
       alert_severity := default "medium" (ad_severity alert_data);
       alert_type := default "unknown" (ad_type alert_data);
       alert_description := default "" (ad_description alert_data);
       alert_source_ip := default (PStr "") (ad_source_ip alert_data);
       alert_destination_ip := default (PStr "") (ad_destination_ip alert_data);
       alert_status := "active" |} in
  modify (fun w => set_alerts (alerts w ++ [alert]) w) ;;;
  when (security_event env)
    (call env (create_event_call
       {| event_type := default "unknown" (ad_type alert_data);
          event_severity := default "medium" (ad_severity alert_data);
          event_source_ip := default PNone (ad_source_ip alert_data);
          event_destination_ip := default PNone (ad_destination_ip alert_data);
          event_risk_score :=
            match ad_severity alert_data with
            | Some sev => if String.eqb sev "high" then 80 else 50
            | None => 50
            end;
          event_metadata := alert_data |}) ;;;
     ret tt) ;;;
  when (cache_manager env)
    (call env (publish_event_call "security_alerts" alert) ;;; ret tt) ;;;
  ret alert.

(** ** Request handlers *)

(** Which branch of a cache-aside read supplied the value (not part of the
    response; kept beside it to state the cache-aside properties). *)
Inductive source := from_cache | from_origin.

Inductive Body :=
| error_json (message : string)
| analysis_json (analysis : Analysis)
| alert_json (alert : Alert)
| alerts_json (listed : list Alert) (total active : Z)
| status_json (stats : Stats) (active_alerts : Z) (updated : Z)
| indicator_json (indicator : Indicator)
| indicators_json (listed : list Indicator) (total : Z)
| cache_clear_json (success : bool) (pattern : string).

(** A response: the JSON body and the HTTP status. *)
Definition Response : Type := Body * Z.

Definition is_active (a : Alert) : bool := String.eqb (alert_status a) "active".

(** [len([a for a in network_monitor.alerts if a['status'] == 'active'])]. *)
Definition count_active (l : list Alert) : Z :=
  Z.of_nat (length (List.filter is_active l)).

(** [GET /api/network/status]. *)
Definition network_status (env : Env) : M (Response * source) :=
  w <- get_world ;;
  now <- py_now ;;
  let cached_stats :=
    if cache_manager env then CacheManager.get_network_stats (cache w) now
    else None in
  read <-
    match cached_stats with
    | Some stats => ret (stats, from_cache)
    | None =>
        let stats := network_stats w in
        when (cache_manager env)
          (modify (fun w =>
             set_cache (CacheManager.set (cache w) CacheManager.stats_key
                          (CacheManager.stats_value stats) now (stats_ttl env)).1 w)) ;;;
        ret (stats, from_origin)
    end ;;
  let '(stats, src) := read in
  w <- get_world ;;
  now <- py_now ;;
  ret ((status_json stats (count_active (alerts w)) now, 200), src).

(** [POST /api/network/analyze]; the body is [None] when the request carries
    JSON [null]. *)
Definition analyze_network_traffic (env : Env) (body : option pydict) : M Response :=
  try_except
    (match body with
     | None => ret (error_json "No traffic data provided", 400)
     | Some traffic_data =>
         if negb (dict_truthy traffic_data) then
           ret (error_json "No traffic data provided", 400)
         else
           analysis <- analyze_traffic env traffic_data ;;
           when (50 <? risk_score analysis)
             (generate_alert env
                {| ad_severity :=
                     Some (if 80 <? risk_score analysis then "high" else "medium");
                   ad_type := Some "traffic_analysis";
                   ad_description :=
                     Some ("High risk traffic detected (score: "
                           +:+ pretty (risk_score analysis) +:+ ")");
                   ad_source_ip :=
                     Some (py_get_default traffic_data "source_ip" (PStr "unknown"));
                   ad_destination_ip :=
                     Some (py_get_default traffic_data "destination_ip"
                             (PStr "unknown")) |} ;;;
              ret tt) ;;;
           ret (analysis_json analysis, 200)
     end)
    (fun _ => ret (error_json "Internal server error", 500)).

(** [GET /api/alerts]; [status_arg] is the [status] query argument. *)
Definition get_alerts (status_arg : option string) : M Response :=
  w <- get_world ;;
  let status_filter := default "all" status_arg in
  let listed :=
    if String.eqb status_filter "active" then List.filter is_active (alerts w)
    else alerts w in
  ret (alerts_json listed (Z.of_nat (length listed)) (count_active (alerts w)), 200).

(** [new_status not in ['active', 'resolved', 'investigating']]: membership
    compares with [==], which only a string can satisfy. *)
Definition legal_status (new_status : pyval) : option string :=
  match new_status with
  | PStr s =>
      if existsb (String.eqb s) ["active"; "resolved"; "investigating"]
      then Some s else None
  | _ => None
  end.

(** The loop of [update_alert]: the first alert with the id gets the new
    status and is returned. *)
Fixpoint update_first (id : Z) (new_status : string) (l : list Alert)
    : option (Alert * list Alert) :=
  match l with
  | [] => None
  | alert :: rest =>
      if alert_id alert =? id then
        Some (set_status alert new_status, set_status alert new_status :: rest)
      else
        match update_first id new_status rest with
        | Some (found, rest') => Some (found, alert :: rest')
        | None => None
        end
  end.

(** [PUT /api/alerts/<int:alert_id>]. *)
Definition update_alert (id : Z) (body : option pydict) : M Response :=
  try_except
    (data <- match body with
             | Some data => ret data
             | None => raise AttributeError
             end ;;
     let new_status := py_get data "status" in
     match legal_status new_status with
     | None => ret (error_json "Invalid status", 400)
     | Some s =>
         w <- get_world ;;
         match update_first id s (alerts w) with
         | Some (alert, alerts') =>
             modify (set_alerts alerts') ;;;
             ret (alert_json alert, 200)
         | None => ret (error_json "Alert not found", 404)
         end
     end)
    (fun _ => ret (error_json "Internal server error", 500)).

(** [GET /api/threats/indicators]. *)
Definition get_threat_indicators (env : Env) : M Response :=
  w <- get_world ;;
  now <- py_now ;;
  let cached_indicators :=
    if cache_manager env then CacheManager.get_threat_indicators (cache w) now
    else [] in
  indicators <-
    match cached_indicators with
    | _ :: _ => ret cached_indicators
    | [] =>
        let indicators := threat_indicators w in
        when (cache_manager env)
          (modify (fun w =>
             set_cache (CacheManager.set (cache w) CacheManager.indicators_key
                          (CacheManager.indicators_value indicators) now
                          (indicators_ttl env)).1 w)) ;;;
        ret indicators
    end ;;
  ret (indicators_json indicators (Z.of_nat (length indicators)), 200).

(** The loop over [required_fields] in [add_threat_indicator]: the first
    field the dict lacks. *)
Definition first_missing (indicator_data : pydict) (required_fields : list string)
    : option string :=
  List.find (fun field => negb (bool_decide (is_Some (indicator_data !! field))))
    required_fields.

(** [POST /api/threats/indicators]. *)
Definition add_threat_indicator (env : Env) (body : option pydict) : M Response :=
  try_except
    (indicator_data <- match body with
                       | Some data => ret data
                       | None => raise TypeError
                       end ;;
     match first_missing indicator_data ["type"; "value"; "description"] with
     | Some field => ret (error_json ("Missing required field: " +:+ field), 400)
     | None =>
         w <- get_world ;;
         now <- py_now ;;
         ty <- lift (py_index indicator_data "type") ;;
         value <- lift (py_index indicator_data "value") ;;
         description <- lift (py_index indicator_data "description") ;;
         let indicator :=
           {| ind_id := Z.of_nat (length (threat_indicators w)) + 1;
              ind_timestamp := now;
              ind_type := ty;
              ind_value := value;
              ind_description := description;
              ind_confidence :=
                py_get_default indicator_data "confidence" (PStr "medium");
              ind_active := true |} in
         modify (fun w => set_threat_indicators (threat_indicators w ++ [indicator]) w) ;;;
         when (threat_intelligence env)
           (call env (add_indicator_call indicator_data) ;;; ret tt) ;;;
         when (cache_manager env)
           (modify (fun w =>
              set_cache (CacheManager.set (cache w) CacheManager.indicators_key
                           (CacheManager.indicators_value (threat_indicators w))
                           now (indicators_ttl env)).1 w)) ;;;
         ret (indicator_json indicator, 201)
     end)
    (fun _ => ret (error_json "Internal server error", 500)).

(** [POST /api/cache/clear]; [pattern_arg] is the [pattern] entry of the JSON
    body, [None] when the body or the entry is absent. *)
Definition clear_cache (env : Env) (pattern_arg : option string) : M Response :=
  try_except
    (let pattern := default "*" pattern_arg in
     success <-
       (if cache_manager env then
          w <- get_world ;;
          let cleared := CacheManager.clear_cache (cache w) pattern in
          modify (set_cache cleared.1) ;;;
          ret cleared.2
        else ret false) ;;
     ret (cache_clear_json success pattern, 200))
    (fun _ => ret (error_json "Internal server error", 500)).

(** ** Background monitor *)

(** Lines 471-475: every active alert older than the cutoff becomes stale. *)
Definition mark_stale (cutoff_time : Z) (alert : Alert) : Alert :=
  if String.eqb (alert_status alert) "active" then
    let alert_time := alert_timestamp alert in
    if alert_time <? cutoff_time then set_status alert "stale" else alert
  else alert.

Definition sweep_alerts (cutoff_time : Z) (l : list Alert) : list Alert :=
  map (mark_stale cutoff_time) l.

(** [timedelta(hours=24)], in microseconds. *)
Definition hours_24 : Z := 24 * 3600 * 1000000.

(** One pass of the [while True] loop of [background_monitor]. *)
Definition background_monitor_tick (env : Env) : M unit :=
  try_except
    (now <- py_now ;;
     modify (fun w => set_network_stats (set_last_updated (network_stats w) now) w) ;;;
     when (cache_manager env)
       (now <- py_now ;;
        modify (fun w =>
          set_cache (CacheManager.set (cache w) CacheManager.stats_key
                       (CacheManager.stats_value (network_stats w)) now
                       (stats_ttl env)).1 w)) ;;;
     now <- py_now ;;
     let cutoff_time := now - hours_24 in
     modify (fun w => set_alerts (sweep_alerts cutoff_time (alerts w)) w) ;;;
     py_sleep 60)
    (fun _ => py_sleep 60).

(** [background_monitor] run for a number of passes. *)
Fixpoint background_monitor (env : Env) (passes : nat) : M unit :=
  match passes with
  | O => ret tt
  | S n => background_monitor_tick env ;;; background_monitor env n
  end.

(** ** Operations on the core *)

(** The operations that read or write [network_monitor] or the cache.  The
    handlers that only relay a request to the database models or to the cache
    statistics (events, metrics, sessions, health, cache statistics) touch
    neither and are left out. *)
Inductive Op :=
| op_network_status
| op_analyze (body : option pydict)
| op_get_alerts (status_arg : option string)
| op_update_alert (id : Z) (body : option pydict)
| op_get_threat_indicators
| op_add_threat_indicator (body : option pydict)
| op_clear_cache (pattern_arg : option string)
| op_background_tick.

(** The world after an operation (the response is dropped). *)
Definition step (env : Env) (op : Op) (w : World) : World :=
  match op with
  | op_network_status => (network_status env w).1
  | op_analyze body => (analyze_network_traffic env body w).1
  | op_get_alerts status_arg => (get_alerts status_arg w).1
  | op_update_alert id body => (update_alert id body w).1
  | op_get_threat_indicators => (get_threat_indicators env w).1
  | op_add_threat_indicator body => (add_threat_indicator env body w).1
  | op_clear_cache pattern_arg => (clear_cache env pattern_arg w).1
  | op_background_tick => (background_monitor_tick env w).1
  end.

Definition is_sweep (op : Op) : bool :=
  match op with op_background_tick => true | _ => false end.

(** ** The rule table, as the specification words it *)

(** An observation is well typed when each field it carries has the type the
    data model gives it ([destination_ip] is never inspected). *)
Definition str_or_absent (o : option pyval) : bool :=
  match o with None | Some (PStr _) => true | _ => false end.
Definition int_or_absent (o : option pyval) : bool :=
  match o with None | Some (PInt _) => true | _ => false end.
Definition list_or_absent (o : option pyval) : bool :=
  match o with None | Some (PList _) => true | _ => false end.

Definition well_typed (d : pydict) : bool :=
  str_or_absent (d !! "source_ip")
  && int_or_absent (d !! "connection_count")
  && int_or_absent (d !! "failed_auth_attempts")
  && list_or_absent (d !! "unusual_ports").

(** The fields of an observation, a missing one read as zero or empty. *)
Definition source_ip_of (d : pydict) : string :=
  match d !! "source_ip" with Some (PStr s) => s | _ => "" end.
Definition connection_count_of (d : pydict) : Z :=
  match d !! "connection_count" with Some (PInt z) => z | _ => 0 end.
Definition failed_auth_attempts_of (d : pydict) : Z :=
  match d !! "failed_auth_attempts" with Some (PInt z) => z | _ => 0 end.
Definition unusual_ports_of (d : pydict) : list Z :=
  match d !! "unusual_ports" with Some (PList l) => l | _ => [] end.

Record Rule := {
  rule_triggered : bool;
  rule_weight : Z;
  rule_label : string;
  rule_recommendation : string
}.

(** The source address is a known threat: an address is given and the
    indicator lookup answers for it. *)
Definition known_threat (env : Env) (d : pydict) : bool :=
  cache_manager env
  && negb (String.eqb (source_ip_of d) "")
  && threat_lookup env (PStr (source_ip_of d)).

(** The four rules in their fixed order. *)
Definition rules (env : Env) (d : pydict) : list Rule :=
  [ {| rule_triggered := known_threat env d;
       rule_weight := 80;
       rule_label := "Known threat IP: " +:+ source_ip_of d;
       rule_recommendation := "Block IP immediately" |};
    {| rule_triggered := bool_decide (connection_count_of d > 1000);
       rule_weight := 30;
       rule_label := "High connection volume";
       rule_recommendation := "Investigate source IP for DDoS activity" |};
    {| rule_triggered := bool_decide (failed_auth_attempts_of d > 10);
       rule_weight := 50;
       rule_label := "Multiple failed authentication attempts";
       rule_recommendation := "Implement rate limiting and block suspicious IPs" |};
    {| rule_triggered := bool_decide (unusual_ports_of d ≠ []);
       rule_weight := 20;
       rule_label := "Unusual port activity detected";
       rule_recommendation := "Review firewall rules and port access" |} ].

Definition triggered_rules (env : Env) (d : pydict) : list Rule :=
  List.filter rule_triggered (rules env d).

Definition sum_weights (l : list Rule) : Z :=
  fold_right Z.add 0 (map rule_weight l).

(** The assessment the rule table prescribes, stamped with time [t]. *)
Definition assess (env : Env) (d : pydict) (t : Z) : Analysis :=
  {| timestamp := t;
     risk_score := sum_weights (triggered_rules env d);
     threats_detected := map rule_label (triggered_rules env d);
     recommendations := map rule_recommendation (triggered_rules env d) |}.

(** ** What one request adds to the state *)

(** The indicator lookups one scoring makes. *)
Definition lookup_calls (env : Env) (d : pydict) : list Call :=
  if cache_manager env && truthy (py_get d "source_ip")
  then [check_threat_indicator_call (py_get d "source_ip")]
  else [].

(** The metric sample one analysis stores. *)
Definition metric_of (d : pydict) (score : Z) : Metric :=
  {| metric_name := "traffic_analysis_risk_score";
     metric_value := score;
     metric_unit := "score";
     metric_source := "network_monitor";
     metric_tag_source_ip := py_get_default d "source_ip" (PStr "unknown") |}.

Definition metric_calls (env : Env) (d : pydict) (score : Z) : list Call :=
  if network_analytics env then [record_metric_call (metric_of d score)] else [].

(** The metric samples among a run of calls. *)
Definition metrics_in (cs : list Call) : list Metric :=
  flat_map (fun c => match c with record_metric_call m => [m] | _ => [] end) cs.

(** The alert [generate_alert] builds when [n] alerts exist at time [t]. *)
Definition new_alert (alert_data : AlertData) (n : nat) (t : Z) : Alert :=
  {| alert_id := Z.of_nat n + 1;
     alert_timestamp := t;
     alert_severity := default "medium" (ad_severity alert_data);
     alert_type := default "unknown" (ad_type alert_data);
     alert_description := default "" (ad_description alert_data);
     alert_source_ip := default (PStr "") (ad_source_ip alert_data);
     alert_destination_ip := default (PStr "") (ad_destination_ip alert_data);
     alert_status := "active" |}.

(** The alert data the analyze handler derives from an observation and its
    score. *)
Definition traffic_alert_data (d : pydict) (score : Z) : AlertData :=
  {| ad_severity := Some (if bool_decide (score > 80) then "high" else "medium");
     ad_type := Some "traffic_analysis";
     ad_description :=
       Some ("High risk traffic detected (score: " +:+ pretty score +:+ ")");
     ad_source_ip := Some (py_get_default d "source_ip" (PStr "unknown"));
     ad_destination_ip := Some (py_get_default d "destination_ip" (PStr "unknown")) |}.

(** ** Vocabulary of the properties *)

(** A computation leaves the component [f] of the state as it found it,
    whether it returns or raises. *)
Definition preserves {X A : Type} (f : World -> X) (m : M A) : Prop :=
  ∀ w, f (m w).1 = f w.

(** An assessment without its time stamp. *)
Definition untimed (a : Analysis) : Z * list string * list string :=
  (risk_score a, threats_detected a, recommendations a).

Definition result_map {A B : Type} (f : A -> B) (r : result A) : result B :=
  match r with
  | Ok a => Ok (f a)
  | Raise e => Raise e
  end.

(** The statuses a status update may request, as the specification lists
    them. *)
Definition legal_statuses : list string := ["active"; "investigating"; "resolved"].

(** The number of alerts whose status is [active], counted over a whole
    list. *)
Definition active_among (l : list Alert) : Z :=
  Z.of_nat (length (filter (fun a => alert_status a = "active") l)).

(** ** Concrete inputs used in examples *)

Definition stats0 : Stats :=
  {| total_connections := 0; suspicious_connections := 0;
     blocked_attempts := 0; last_updated := 0 |}.

Definition cache0 : CacheManager.t :=
  {| CacheManager.reachable := true; CacheManager.entries := ∅ |}.

(** The state right after start-up, at time [t]. *)
Definition world0 (t : Z) : World :=
  {| alerts := []; threat_indicators := []; network_stats := stats0;
     cache := cache0; calls := []; clock := t |}.

(** A deployment with cache and database, where [1.2.3.4] is a known threat
    and every collaborator call succeeds. *)
Definition env_full : Env :=
  {| cache_manager := true; db_manager := true;
     threat_lookup := fun ip => match ip with
                                | PStr s => String.eqb s "1.2.3.4"
                                | _ => false
                                end;
     collab_ok := fun _ => true;
     stats_ttl := 300 * 1000000; indicators_ttl := 3600 * 1000000 |}.

(** The same deployment without [DATABASE_URL]. *)
Definition env_no_db : Env :=
  {| cache_manager := true; db_manager := false;
     threat_lookup := threat_lookup env_full;
     collab_ok := fun _ => true;
     stats_ttl := stats_ttl env_full; indicators_ttl := indicators_ttl env_full |}.

(** The observation of the specification's additivity example. *)
Definition obs_volume_auth : pydict :=
  {[ "connection_count" := PInt 1500; "failed_auth_attempts" := PInt 15 ]}.

(** An observation scoring exactly 50. *)
Definition obs_auth : pydict :=
  {[ "source_ip" := PStr "10.0.0.9"; "failed_auth_attempts" := PInt 20 ]}.

(** An observation from the known threat, scoring 130. *)
Definition obs_threat : pydict :=
  {[ "source_ip" := PStr "1.2.3.4"; "failed_auth_attempts" := PInt 20 ]}.

(** An alert raised at time 0 that the sweep has marked stale. *)
Definition stale_alert : Alert :=
  {| alert_id := 1; alert_timestamp := 0; alert_severity := "medium";
     alert_type := "traffic_analysis"; alert_description := "";
     alert_source_ip := PStr "10.0.0.9"; alert_destination_ip := PStr "unknown";
     alert_status := "stale" |}.

(** A state, two days after start-up, holding that alert. *)
Definition world_stale : World :=
  {| alerts := [stale_alert]; threat_indicators := []; network_stats := stats0;
     cache := cache0; calls := []; clock := 2 * hours_24 |}.

(** An alert raised at time 0 and still active. *)
Definition active_alert : Alert := set_status stale_alert "active".

(** A state holding an active alert with id 1 and a resolved one with id 2. *)
Definition world_two_alerts : World :=
  {| alerts := [active_alert;
                {| alert_id := 2; alert_timestamp := 5; alert_severity := "high";
                   alert_type := "traffic_analysis"; alert_description := "";
                   alert_source_ip := PStr "1.2.3.4";
                   alert_destination_ip := PStr "unknown";
                   alert_status := "resolved" |}];
     threat_indicators := []; network_stats := stats0;
     cache := cache0; calls := []; clock := 10 |}.

(** A state whose cache holds an old snapshot of the statistics and whose
    authoritative statistics have moved on. *)
Definition world_cached : World :=
  {| alerts := [active_alert]; threat_indicators := [];
     network_stats :=
       {| total_connections := 42; suspicious_connections := 3;
          blocked_attempts := 1; last_updated := 900 |};
     cache :=
       {| CacheManager.reachable := true;
          CacheManager.entries :=
            {[ CacheManager.stats_key :=
                 (1000 + stats_ttl env_full, CacheManager.stats_value stats0) ]} |};
     calls := []; clock := 1000 |}.

(** The same state with the cache backend down. *)
Definition world_cache_down : World :=
  set_cache {| CacheManager.reachable := false;
               CacheManager.entries := CacheManager.entries (cache world_cached) |}
    world_cached.

(** An observation whose connection count is a string. *)
Definition obs_ill_typed : pydict :=
  {[ "source_ip" := PStr "1.2.3.4"; "connection_count" := PStr "many" ]}.

(** ** Runs of operations and state invariants *)

(** The state after a sequence of operations, first one first. *)
Definition run (env : Env) (ops : list Op) (w : World) : World :=
  fold_left (fun w op => step env op w) ops w.

(** Alert ids count the alerts in insertion order: the alert at position [i]
    (from 0) has id [i + 1]. *)
Definition ids_sequential (l : list Alert) : Prop :=
  ∀ (i : nat) (a : Alert), l !! i = Some a → alert_id a = Z.of_nat i + 1.

(** The same for threat indicators. *)
Definition indicator_ids_sequential (l : list Indicator) : Prop :=
  ∀ (i : nat) (x : Indicator), l !! i = Some x → ind_id x = Z.of_nat i + 1.

(** The three counters of the network statistics. *)
Definition counters (s : Stats) : Z * Z * Z :=
  (total_connections s, suspicious_connections s, blocked_attempts s).

(** Which operations may write which part of [network_monitor]. *)
Definition writes_alerts (op : Op) : bool :=
  match op with
  | op_analyze _ | op_update_alert _ _ | op_background_tick => true
  | _ => false
  end.

Definition writes_indicators (op : Op) : bool :=
  match op with op_add_threat_indicator _ => true | _ => false end.

Definition writes_stats (op : Op) : bool :=
  match op with op_background_tick => true | _ => false end.

(** A value the comparisons of [analyze_traffic] accept: a number or a
    boolean. *)
Definition comparable (v : pyval) : bool :=
  match v with PInt _ | PBool _ => true | _ => false end.

(** The observation lets both comparisons of [analyze_traffic] go through:
    each counter is absent or comparable. *)
Definition counters_comparable (d : pydict) : bool :=
  comparable (py_get_default d "connection_count" (PInt 0))
  && comparable (py_get_default d "failed_auth_attempts" (PInt 0)).

(** The event [generate_alert] mirrors to the database for some alert
    data. *)
Definition event_of (alert_data : AlertData) : Event :=
  {| event_type := default "unknown" (ad_type alert_data);
     event_severity := default "medium" (ad_severity alert_data);
     event_source_ip := default PNone (ad_source_ip alert_data);
     event_destination_ip := default PNone (ad_destination_ip alert_data);
     event_risk_score :=
       if bool_decide (ad_severity alert_data = Some "high") then 80 else 50;
     event_metadata := alert_data |}.

(** The calls one [generate_alert] issues: the database mirror, then the
    publish. *)
Definition alert_calls (env : Env) (alert_data : AlertData) (alert : Alert)
    : list Call :=
  (if security_event env then [create_event_call (event_of alert_data)] else [])
  ++ (if cache_manager env then [publish_event_call "security_alerts" alert] else []).

(** The database mirrors among a run of calls. *)
Definition events_in (cs : list Call) : list Event :=
  flat_map (fun c => match c with create_event_call e => [e] | _ => [] end) cs.

Definition writes_cache (op : Op) : bool :=
  match op with
  | op_analyze _ | op_get_alerts _ | op_update_alert _ _ => false
  | _ => true
  end.

Definition moves_clock (op : Op) : bool :=
  match op with op_background_tick => true | _ => false end.

(** A state at time 10 holding one active alert raised at time 5. *)
Definition world_young_alert : World :=
  {| alerts := [ {| alert_id := 1; alert_timestamp := 5; alert_severity := "high";
                    alert_type := "traffic_analysis"; alert_description := "";
                    alert_source_ip := PStr "1.2.3.4";
                    alert_destination_ip := PStr "unknown";
                    alert_status := "active" |} ];
     threat_indicators := []; network_stats := stats0;
     cache := cache0; calls := []; clock := 10 |}.

(** The indicator [add_threat_indicator] builds from a submission when [n]
    indicators exist at time [t]; a field the submission lacks reads as
    [None]. *)
Definition new_indicator (d : pydict) (n : nat) (t : Z) : Indicator :=
  {| ind_id := Z.of_nat n + 1;
     ind_timestamp := t;
     ind_type := py_get d "type";
     ind_value := py_get d "value";
     ind_description := py_get d "description";
     ind_confidence := py_get_default d "confidence" (PStr "medium");
     ind_active := true |}.

(** A submission whose three required fields are all JSON [null]. *)
Definition indicator_nulls : pydict :=
  {[ "type" := PNone; "value" := PNone; "description" := PNone ]}.

(** A submission of an address without a description. *)
Definition indicator_no_description : pydict :=
  {[ "type" := PStr "ip"; "value" := PStr "1.2.3.4"; "confidence" := PStr "high" ]}.

(** An observation with a number as address, a string as port list and a
    boolean as connection count. *)
Definition obs_odd_types : pydict :=
  {[ "source_ip" := PInt 7; "unusual_ports" := PStr "22";
     "connection_count" := PBool true ]}.

(** An observation whose failed authentication count is JSON [null]. *)
Definition obs_null_counter : pydict :=
  {[ "source_ip" := PStr "1.2.3.4"; "failed_auth_attempts" := PNone ]}.

(** The state [NetworkMonitor.__init__] builds at time [t], beside any cache
    content: no alert, no indicator, counters at 0. *)
Definition startup (t : Z) (c : CacheManager.t) : World :=
  {| alerts := []; threat_indicators := [];
     network_stats :=
       {| total_connections := 0; suspicious_connections := 0;
          blocked_attempts := 0; last_updated := t |};
     cache := c; calls := []; clock := t |}.

(** What every alert the handlers produce looks like. *)
Definition alert_well_formed (a : Alert) : Prop :=
  alert_status a ∈ ["active"; "resolved"; "investigating"; "stale"]
  ∧ alert_severity a ∈ ["high"; "medium"]
  ∧ alert_type a = "traffic_analysis".


(** ** Collaborators that raise *)

(** A call to code outside [app.py] either returns or raises.  The
    definitions above are the runs in which every collaborator returns.
    [analyze_traffic] and [generate_alert] wrap none of their calls in a
    [try] of their own, so an exception a collaborator raises travels up to
    the [except Exception] of the handler.  This module is the analysis path
    (lines 53-128 and 174-199) once more, with collaborators of which
    [raises c] tells whether the call [c] raises; a call that returns gives
    what the environment answers.  A collaborator does not touch
    [network_monitor]. *)
Module Raising.

Definition call (raises : Call -> bool) (env : Env) (c : Call) : M bool :=
  fun w => (set_calls (calls w ++ [c]) w,
            if raises c then Raise CollaboratorError else Ok (collab_ok env c)).

Definition check_threat_indicator (raises : Call -> bool) (env : Env)
    (ip : pyval) : M bool :=
  fun w => (set_calls (calls w ++ [check_threat_indicator_call ip]) w,
            if raises (check_threat_indicator_call ip) then Raise CollaboratorError
            else Ok (threat_lookup env ip)).

(** [analyze_traffic], lines 55-84. *)
Definition score_traffic (raises : Call -> bool) (env : Env)
    (traffic_data : pydict) : M Analysis :=
  now <- py_now ;;
  let analysis :=
    {| timestamp := now; risk_score := 0;
       threats_detected := []; recommendations := [] |} in
  analysis <-
    (if cache_manager env && truthy (py_get traffic_data "source_ip") then
       ip <- lift (py_index traffic_data "source_ip") ;;
       threat_check <- check_threat_indicator raises env ip ;;
       if threat_check then
         ip <- lift (py_index traffic_data "source_ip") ;;
         ret (add_finding analysis 80 ("Known threat IP: " +:+ py_str ip)
                "Block IP immediately")
       else ret analysis
     else ret analysis) ;;
  high_volume <-
    lift (py_gt (py_get_default traffic_data "connection_count" (PInt 0)) 1000) ;;
  let analysis :=
    if high_volume then
      add_finding analysis 30 "High connection volume"
        "Investigate source IP for DDoS activity"
    else analysis in
  failed_auth <-
    lift (py_gt (py_get_default traffic_data "failed_auth_attempts" (PInt 0)) 10) ;;
  let analysis :=
    if failed_auth then
      add_finding analysis 50 "Multiple failed authentication attempts"
        "Implement rate limiting and block suspicious IPs"
    else analysis in
  let analysis :=
    if truthy (py_get_default traffic_data "unusual_ports" (PList [])) then
      add_finding analysis 20 "Unusual port activity detected"
        "Review firewall rules and port access"
    else analysis in
  ret analysis.

(** [analyze_traffic], lines 86-94. *)
Definition store_analysis (raises : Call -> bool) (env : Env)
    (traffic_data : pydict) (analysis : Analysis) : M unit :=
  when (network_analytics env)
    (call raises env (record_metric_call
       {| metric_name := "traffic_analysis_risk_score";
          metric_value := risk_score analysis;
          metric_unit := "score";
          metric_source := "network_monitor";
          metric_tag_source_ip :=
            py_get_default traffic_data "source_ip" (PStr "unknown") |}) ;;;
     ret tt).

Definition analyze_traffic (raises : Call -> bool) (env : Env)
    (traffic_data : pydict) : M Analysis :=
  analysis <- score_traffic raises env traffic_data ;;
  store_analysis raises env traffic_data analysis ;;;
  ret analysis.

(** [generate_alert], lines 98-128: the alert is appended (line 111) before
    the database and the channel are called (lines 114-126). *)
Definition generate_alert (raises : Call -> bool) (env : Env)
    (alert_data : AlertData) : M Alert :=
  w <- get_world ;;
  now <- py_now ;;
  let alert :=
    {| alert_id := Z.of_nat (length (alerts w)) + 1;
       alert_timestamp := now;
       alert_severity := default "medium" (ad_severity alert_data);
       alert_type := default "unknown" (ad_type alert_data);
       alert_description := default "" (ad_description alert_data);
       alert_source_ip := default (PStr "") (ad_source_ip alert_data);
       alert_destination_ip := default (PStr "") (ad_destination_ip alert_data);
       alert_status := "active" |} in
  modify (fun w => set_alerts (alerts w ++ [alert]) w) ;;;
  when (security_event env)
    (call raises env (create_event_call
       {| event_type := default "unknown" (ad_type alert_data);
          event_severity := default "medium" (ad_severity alert_data);
          event_source_ip := default PNone (ad_source_ip alert_data);
          event_destination_ip := default PNone (ad_destination_ip alert_data);
          event_risk_score :=
            match ad_severity alert_data with
            | Some sev => if String.eqb sev "high" then 80 else 50
            | None => 50
            end;
          event_metadata := alert_data |}) ;;;
     ret tt) ;;;
  when (cache_manager env)
    (call raises env (publish_event_call "security_alerts" alert) ;;; ret tt) ;;;
  ret alert.

(** [POST /api/network/analyze]. *)
Definition analyze_network_traffic (raises : Call -> bool) (env : Env)
    (body : option pydict) : M Response :=
  try_except
    (match body with
     | None => ret (error_json "No traffic data provided", 400)
     | Some traffic_data =>
         if negb (dict_truthy traffic_data) then
           ret (error_json "No traffic data provided", 400)
         else
           analysis <- analyze_traffic raises env traffic_data ;;
           when (50 <? risk_score analysis)
             (generate_alert raises env
                {| ad_severity :=
                     Some (if 80 <? risk_score analysis then "high" else "medium");
                   ad_type := Some "traffic_analysis";
                   ad_description :=
                     Some ("High risk traffic detected (score: "
                           +:+ pretty (risk_score analysis) +:+ ")");
                   ad_source_ip :=
                     Some (py_get_default traffic_data "source_ip" (PStr "unknown"));
                   ad_destination_ip :=
                     Some (py_get_default traffic_data "destination_ip"
                             (PStr "unknown")) |} ;;;
              ret tt) ;;;
           ret (analysis_json analysis, 200)
     end)
    (fun _ => ret (error_json "Internal server error", 500)).

End Raising.

(** The calls the analyze handler issues on the way to the assessment when
    none raises: the indicator lookup and the metric sample. *)
Definition scoring_calls (env : Env) (d : pydict) : list Call :=
  lookup_calls env d ++ metric_calls env d (sum_weights (triggered_rules env d)).

(** The alert the analyze handler raises for a score above 50 when [n] alerts
    exist at time [t]. *)
Definition traffic_alert (env : Env) (d : pydict) (n : nat) (t : Z) : Alert :=
  new_alert (traffic_alert_data d (sum_weights (triggered_rules env d))) n t.

(** The calls of the alert creation, issued for a score above 50 only. *)
Definition alert_creation_calls (env : Env) (d : pydict) (n : nat) (t : Z)
    : list Call :=
  if bool_decide (sum_weights (triggered_rules env d) > 50) then
    alert_calls env (traffic_alert_data d (sum_weights (triggered_rules env d)))
      (traffic_alert env d n t)
  else [].

(** The calls that are issued of a planned run of calls: those up to and
    including the first one that raises. *)
Fixpoint issued (raises : Call -> bool) (planned : list Call) : list Call :=
  match planned with
  | [] => []
  | c :: rest => c :: (if raises c then [] else issued raises rest)
  end.

(** Collaborators of which only the database mirror of an alert raises, and
    of which only the publish raises. *)
Definition create_event_raises (c : Call) : bool :=
  match c with create_event_call _ => true | _ => false end.

Definition publish_event_raises (c : Call) : bool :=
  match c with publish_event_call _ _ => true | _ => false end.

(** ** The [stale] status under the operations *)

Definition is_status_update (op : Op) : bool :=
  match op with op_update_alert _ _ => true | _ => false end.

(** The full deployment with a database and a channel that return a failure
    for every call. *)
Definition env_reporting_failure : Env :=
  {| cache_manager := true; db_manager := true;
     threat_lookup := threat_lookup env_full;
     collab_ok := fun _ => false;
     stats_ttl := stats_ttl env_full; indicators_ttl := indicators_ttl env_full |}.

(** A status update asking for [investigating]. *)
Definition status_investigating : pydict := {[ "status" := PStr "investigating" ]}.

(** A state two days after start-up with three alerts: an active one raised
    at time 0, an active one raised exactly 24 hours ago, and a resolved one
    raised at time 0. *)
Definition world_sweep : World :=
  {| alerts :=
       [ {| alert_id := 1; alert_timestamp := 0; alert_severity := "medium";
            alert_type := "traffic_analysis"; alert_description := "";
            alert_source_ip := PStr "10.0.0.9";
            alert_destination_ip := PStr "unknown";
            alert_status := "active" |};
         {| alert_id := 2; alert_timestamp := hours_24; alert_severity := "high";
            alert_type := "traffic_analysis"; alert_description := "";
            alert_source_ip := PStr "1.2.3.4";
            alert_destination_ip := PStr "unknown";
            alert_status := "active" |};
         {| alert_id := 3; alert_timestamp := 0; alert_severity := "high";
            alert_type := "traffic_analysis"; alert_description := "";
            alert_source_ip := PStr "1.2.3.4";
            alert_destination_ip := PStr "unknown";
            alert_status := "resolved" |} ];
     threat_indicators := []; network_stats := stats0;
     cache := cache0; calls := []; clock := 2 * hours_24 |}.
(** * Properties *)

(** ** Generic facts about the effects *)

Lemma set_calls_id w : set_calls (calls w ++ []) w = w.
Proof. destruct w; unfold set_calls; simpl. by rewrite app_nil_r. Qed.

Lemma set_calls_set_calls l1 l2 w :
  set_calls (calls (set_calls (calls w ++ l1) w) ++ l2) (set_calls (calls w ++ l1) w)
  = set_calls (calls w ++ l1 ++ l2) w.
Proof. unfold set_calls; simpl. by rewrite <- app_assoc. Qed.

(** ** Reading a well-typed observation *)

Section Fields.
Variable d : pydict.
Hypothesis Hwt : well_typed d = true.

Lemma well_typed_fields :
  str_or_absent (d !! "source_ip") = true
  ∧ int_or_absent (d !! "connection_count") = true
  ∧ int_or_absent (d !! "failed_auth_attempts") = true
  ∧ list_or_absent (d !! "unusual_ports") = true.
Proof.
  unfold well_typed in Hwt.
  repeat (apply andb_prop in Hwt; destruct Hwt as [Hwt ?]). auto.
Qed.

Lemma source_ip_get :
  truthy (py_get d "source_ip") = negb (String.eqb (source_ip_of d) "")
  ∧ (truthy (py_get d "source_ip") = true →
     py_get d "source_ip" = PStr (source_ip_of d)
     ∧ py_index d "source_ip" = Ok (PStr (source_ip_of d))).
Proof.
  destruct well_typed_fields as (H & _).
  unfold py_get, py_index, source_ip_of.
  destruct (d !! "source_ip") as [[|b|z|s|l]|]; simpl in *; try discriminate; auto.
  split; [done | intros; discriminate].
Qed.

Lemma connection_count_gt :
  py_gt (py_get_default d "connection_count" (PInt 0)) 1000
  = Ok (bool_decide (connection_count_of d > 1000)).
Proof.
  destruct well_typed_fields as (_ & H & _).
  unfold py_get_default, connection_count_of.
  destruct (d !! "connection_count") as [[|b|z|s|l]|]; simpl in *; try discriminate;
    f_equal; symmetry; case_bool_decide; lia.
Qed.

Lemma failed_auth_attempts_gt :
  py_gt (py_get_default d "failed_auth_attempts" (PInt 0)) 10
  = Ok (bool_decide (failed_auth_attempts_of d > 10)).
Proof.
  destruct well_typed_fields as (_ & _ & H & _).
  unfold py_get_default, failed_auth_attempts_of.
  destruct (d !! "failed_auth_attempts") as [[|b|z|s|l]|]; simpl in *; try discriminate;
    f_equal; symmetry; case_bool_decide; lia.
Qed.

Lemma unusual_ports_truthy :
  truthy (py_get_default d "unusual_ports" (PList []))
  = bool_decide (unusual_ports_of d ≠ []).
Proof.
  destruct well_typed_fields as (_ & _ & _ & H).
  unfold py_get_default, unusual_ports_of.
  destruct (d !! "unusual_ports") as [[|b|z|s|l]|]; simpl in *; try discriminate;
    try destruct l; symmetry; try case_bool_decide; congruence.
Qed.

End Fields.

Lemma score_traffic_run env d w :
  well_typed d = true →
  score_traffic env d w
  = (set_calls (calls w ++ lookup_calls env d) w, Ok (assess env d (clock w))).
Proof.
  intros Hwt.
  destruct (source_ip_get d Hwt) as [Htruthy Hsrc].
  unfold score_traffic, lookup_calls, assess, triggered_rules, rules, known_threat.
  unfold bind, py_now, lift, ret.
  rewrite (connection_count_gt d Hwt), (failed_auth_attempts_gt d Hwt),
    (unusual_ports_truthy d Hwt).
  rewrite <- Htruthy.
  destruct (cache_manager env); simpl andb; cycle 1.
  - rewrite set_calls_id.
    destruct (bool_decide (connection_count_of d > 1000)),
      (bool_decide (failed_auth_attempts_of d > 10)),
      (bool_decide (unusual_ports_of d ≠ [])); reflexivity.
  - destruct (truthy (py_get d "source_ip")) eqn:Ht; cycle 1.
    + rewrite set_calls_id.
      destruct (bool_decide (connection_count_of d > 1000)),
        (bool_decide (failed_auth_attempts_of d > 10)),
        (bool_decide (unusual_ports_of d ≠ [])); reflexivity.
    + destruct (Hsrc eq_refl) as [Hget Hidx]. rewrite Hidx, Hget.
      unfold check_threat_indicator.
      destruct (threat_lookup env (PStr (source_ip_of d)));
      destruct (bool_decide (connection_count_of d > 1000)),
        (bool_decide (failed_auth_attempts_of d > 10)),
        (bool_decide (unusual_ports_of d ≠ [])); reflexivity.
Qed.

Lemma analyze_traffic_run env d w :
  well_typed d = true →
  analyze_traffic env d w
  = (set_calls (calls w ++ lookup_calls env d
                 ++ metric_calls env d (risk_score (assess env d (clock w)))) w,
     Ok (assess env d (clock w))).
Proof.
  intros Hwt. unfold analyze_traffic, bind.
  rewrite (score_traffic_run env d w Hwt).
  unfold store_analysis, metric_calls, when, call, bind, ret, metric_of.
  destruct (network_analytics env).
  - by rewrite set_calls_set_calls.
  - by rewrite app_nil_r.
Qed.

Lemma generate_alert_alerts env alert_data w :
  alerts (generate_alert env alert_data w).1
  = alerts w ++ [new_alert alert_data (length (alerts w)) (clock w)]
  ∧ (generate_alert env alert_data w).2
    = Ok (new_alert alert_data (length (alerts w)) (clock w))
  ∧ threat_indicators (generate_alert env alert_data w).1 = threat_indicators w
  ∧ network_stats (generate_alert env alert_data w).1 = network_stats w
  ∧ cache (generate_alert env alert_data w).1 = cache w
  ∧ clock (generate_alert env alert_data w).1 = clock w
  ∧ metrics_in (calls (generate_alert env alert_data w).1) = metrics_in (calls w).
Proof.
  unfold generate_alert, bind, get_world, py_now, modify, when, call, ret, new_alert.
  destruct (security_event env), (cache_manager env); simpl;
    repeat split; try reflexivity;
    unfold metrics_in; rewrite ?flat_map_app; simpl; by rewrite ?app_nil_r.
Qed.

Lemma analyze_network_traffic_run env d w :
  dict_truthy d = true →
  well_typed d = true →
  analyze_network_traffic env (Some d) w
  = (if bool_decide (risk_score (assess env d (clock w)) > 50)
     then (generate_alert env
             (traffic_alert_data d (risk_score (assess env d (clock w))))
             (analyze_traffic env d w).1).1
     else (analyze_traffic env d w).1,
     Ok (analysis_json (assess env d (clock w)), 200)).
Proof.
  intros Hd Hwt. unfold analyze_network_traffic, try_except, bind.
  rewrite Hd. change (negb true) with false. cbv beta iota.
  rewrite (analyze_traffic_run env d w Hwt). cbv beta iota. simpl fst.
  set (a := assess env d (clock w)).
  unfold when, traffic_alert_data.
  replace (bool_decide (risk_score a > 50)) with (50 <? risk_score a)
    by (case_bool_decide; lia).
  replace (bool_decide (risk_score a > 80)) with (80 <? risk_score a)
    by (case_bool_decide; lia).
  destruct (50 <? risk_score a); [|reflexivity].
  change (sum_weights (triggered_rules env d)) with (risk_score a).
  match goal with |- context [generate_alert ?e ?ad ?w0] =>
    pose proof (generate_alert_alerts e ad w0) as (_ & Hres & _);
    destruct (generate_alert e ad w0) as [w1 r1] end.
  simpl in Hres. subst r1. reflexivity.
Qed.

(** ** C1: rule additivity *)

(** C1.  For every well-typed traffic observation (any subset of the
    fields, a missing one read as zero or empty), [analyze_traffic] raises no
    error and returns the assessment of the rule table: the risk score is the
    sum of the weights of exactly the triggered rules (known threat 80,
    connection count above 1000 30, failed authentications above 10 50,
    unusual ports present 20), with one label and one recommendation per
    triggered rule, in the order of the rules. *)
Theorem analyze_traffic_rule_additivity env (d : pydict) w :
  well_typed d = true →
  (analyze_traffic env d w).2
  = Ok {| timestamp := clock w;
          risk_score := sum_weights (triggered_rules env d);
          threats_detected := map rule_label (triggered_rules env d);
          recommendations := map rule_recommendation (triggered_rules env d) |}.
Proof.
  intros Hwt. by rewrite (analyze_traffic_run env d w Hwt).
Qed.

(** The additivity example of the specification: 1500 connections and 15
    failed authentications score 80, with two labels and two
    recommendations. *)
Lemma analyze_traffic_rule_additivity_example :
  well_typed obs_volume_auth = true
  ∧ (analyze_traffic env_full obs_volume_auth (world0 0)).2
    = Ok {| timestamp := 0;
            risk_score := 80;
            threats_detected :=
              ["High connection volume"; "Multiple failed authentication attempts"];
            recommendations :=
              ["Investigate source IP for DDoS activity";
               "Implement rate limiting and block suspicious IPs"] |}.
Proof.
  split; [reflexivity|].
  rewrite (analyze_traffic_rule_additivity env_full obs_volume_auth (world0 0) eq_refl).
  reflexivity.
Defined.

(** ** C2: alert threshold and metric sample *)

Lemma analyze_network_traffic_effects env (d : pydict) w :
  dict_truthy d = true →
  well_typed d = true →
  alerts (analyze_network_traffic env (Some d) w).1
  = alerts w
    ++ (if bool_decide (sum_weights (triggered_rules env d) > 50)
        then [new_alert (traffic_alert_data d (sum_weights (triggered_rules env d)))
                (length (alerts w)) (clock w)]
        else [])
  ∧ metrics_in (calls (analyze_network_traffic env (Some d) w).1)
    = metrics_in (calls w)
      ++ (if db_manager env
          then [metric_of d (sum_weights (triggered_rules env d))] else []).
Proof.
  intros Hd Hwt.
  rewrite (analyze_network_traffic_run env d w Hd Hwt).
  rewrite (analyze_traffic_run env d w Hwt). simpl fst.
  change (risk_score (assess env d (clock w)))
    with (sum_weights (triggered_rules env d)).
  set (score := sum_weights (triggered_rules env d)).
  assert (Hm : metrics_in (calls w ++ lookup_calls env d ++ metric_calls env d score)
               = metrics_in (calls w)
                 ++ (if db_manager env then [metric_of d score] else [])).
  { unfold metrics_in, lookup_calls, metric_calls, network_analytics.
    rewrite !flat_map_app.
    destruct (cache_manager env && truthy (py_get d "source_ip")),
      (db_manager env); reflexivity. }
  destruct (bool_decide (score > 50)).
  - match goal with |- context [generate_alert ?e ?ad ?w0] =>
      pose proof (generate_alert_alerts e ad w0) as (Ha & _ & _ & _ & _ & _ & Hc) end.
    rewrite Ha, Hc. simpl. by rewrite Hm.
  - simpl. rewrite Hm, app_nil_r. done.
Qed.

(** C2 (as stated) fails: without a database the analyze handler scores an
    observation at 50, creates no alert and records no metric sample. *)
Lemma analyze_without_database_records_no_metric :
  (analyze_network_traffic env_no_db (Some obs_auth) (world0 0)).2
  = Ok (analysis_json
          {| timestamp := 0; risk_score := 50;
             threats_detected := ["Multiple failed authentication attempts"];
             recommendations :=
               ["Implement rate limiting and block suspicious IPs"] |}, 200)
  ∧ alerts (analyze_network_traffic env_no_db (Some obs_auth) (world0 0)).1 = []
  ∧ metrics_in (calls (analyze_network_traffic env_no_db (Some obs_auth) (world0 0)).1)
    = [].
Proof. vm_compute. auto. Qed.

(** C2 (amended).  For every non-empty well-typed observation the analyze
    handler answers 200 with the assessment; it appends an alert exactly when
    the risk score exceeds 50, of type [traffic_analysis], status [active] and
    severity [high] above 80 and [medium] otherwise; and whatever the score,
    it hands one metric sample named [traffic_analysis_risk_score] with the
    score as value to the analytics collaborator when a database is
    configured, and none when it is not. *)
Theorem analyze_alert_threshold env (d : pydict) w :
  dict_truthy d = true →
  well_typed d = true →
  (analyze_network_traffic env (Some d) w).2
  = Ok (analysis_json (assess env d (clock w)), 200)
  ∧ alerts (analyze_network_traffic env (Some d) w).1
    = alerts w
      ++ (if bool_decide (sum_weights (triggered_rules env d) > 50)
          then [ {| alert_id := Z.of_nat (length (alerts w)) + 1;
                    alert_timestamp := clock w;
                    alert_severity :=
                      if bool_decide (sum_weights (triggered_rules env d) > 80)
                      then "high" else "medium";
                    alert_type := "traffic_analysis";
                    alert_description :=
                      "High risk traffic detected (score: "
                      +:+ pretty (sum_weights (triggered_rules env d)) +:+ ")";
                    alert_source_ip := py_get_default d "source_ip" (PStr "unknown");
                    alert_destination_ip :=
                      py_get_default d "destination_ip" (PStr "unknown");
                    alert_status := "active" |} ]
          else [])
  ∧ metrics_in (calls (analyze_network_traffic env (Some d) w).1)
    = metrics_in (calls w)
      ++ (if db_manager env
          then [ {| metric_name := "traffic_analysis_risk_score";
                    metric_value := sum_weights (triggered_rules env d);
                    metric_unit := "score";
                    metric_source := "network_monitor";
                    metric_tag_source_ip :=
                      py_get_default d "source_ip" (PStr "unknown") |} ]
          else []).
Proof.
  intros Hd Hwt.
  destruct (analyze_network_traffic_effects env d w Hd Hwt) as [Ha Hm].
  split; [by rewrite (analyze_network_traffic_run env d w Hd Hwt)|].
  split; [exact Ha | exact Hm].
Qed.

(** The end-to-end scenario of the specification with a database: a score of
    80 raises a [medium] alert and the sample is recorded. *)
Lemma analyze_alert_threshold_example :
  dict_truthy obs_volume_auth = true
  ∧ well_typed obs_volume_auth = true
  ∧ map alert_severity
      (alerts (analyze_network_traffic env_full (Some obs_volume_auth) (world0 0)).1)
    = ["medium"]
  ∧ map metric_value
      (metrics_in
         (calls (analyze_network_traffic env_full (Some obs_volume_auth) (world0 0)).1))
    = [80].
Proof.
  split; [reflexivity|]. split; [reflexivity|].
  destruct (analyze_alert_threshold env_full obs_volume_auth (world0 0) eq_refl eq_refl)
    as (_ & Ha & Hm).
  rewrite Ha, Hm. split; reflexivity.
Defined.

(** ** C5: the analysis when a collaborator raises *)

(** With collaborators that never raise, the handler of module [Raising] is
    the handler above. *)
Lemma raising_never_is_plain env body :
  Raising.analyze_network_traffic (fun _ => false) env body
  = analyze_network_traffic env body.
Proof. reflexivity. Qed.

Lemma issued_app raises (l1 l2 : list Call) :
  issued raises (l1 ++ l2)
  = if existsb raises l1 then issued raises l1 else l1 ++ issued raises l2.
Proof.
  induction l1 as [|c l1 IH]; [reflexivity|]. simpl.
  destruct (raises c); simpl; [reflexivity|].
  rewrite IH. by destruct (existsb raises l1).
Qed.

Lemma issued_none raises (l : list Call) :
  existsb raises l = false → issued raises l = l.
Proof.
  induction l as [|c l IH]; [reflexivity|]. simpl.
  destruct (raises c); simpl; [discriminate|]. intros H. by rewrite IH.
Qed.

Lemma raising_score_traffic_run raises env d w :
  well_typed d = true →
  Raising.score_traffic raises env d w
  = (set_calls (calls w ++ lookup_calls env d) w,
     if existsb raises (lookup_calls env d) then Raise CollaboratorError
     else Ok (assess env d (clock w))).
Proof.
  intros Hwt.
  destruct (source_ip_get d Hwt) as [Htruthy Hsrc].
  unfold Raising.score_traffic, lookup_calls, assess, triggered_rules, rules, known_threat.
  unfold bind, py_now, lift, ret.
  rewrite (connection_count_gt d Hwt), (failed_auth_attempts_gt d Hwt),
    (unusual_ports_truthy d Hwt).
  rewrite <- Htruthy.
  destruct (cache_manager env); simpl andb; cycle 1.
  - rewrite set_calls_id. simpl existsb. cbv iota.
    destruct (bool_decide (connection_count_of d > 1000)),
      (bool_decide (failed_auth_attempts_of d > 10)),
      (bool_decide (unusual_ports_of d ≠ [])); reflexivity.
  - destruct (truthy (py_get d "source_ip")) eqn:Ht; cycle 1.
    + rewrite set_calls_id. simpl existsb. cbv iota.
      destruct (bool_decide (connection_count_of d > 1000)),
        (bool_decide (failed_auth_attempts_of d > 10)),
        (bool_decide (unusual_ports_of d ≠ [])); reflexivity.
    + destruct (Hsrc eq_refl) as [Hget Hidx]. rewrite Hidx, Hget.
      unfold Raising.check_threat_indicator. simpl existsb.
      destruct (raises (check_threat_indicator_call (PStr (source_ip_of d))));
        [reflexivity|]. simpl orb. cbv iota.
      destruct (threat_lookup env (PStr (source_ip_of d)));
      destruct (bool_decide (connection_count_of d > 1000)),
        (bool_decide (failed_auth_attempts_of d > 10)),
        (bool_decide (unusual_ports_of d ≠ [])); reflexivity.
Qed.

Lemma raising_analyze_traffic_run raises env d w :
  well_typed d = true →
  Raising.analyze_traffic raises env d w
  = (set_calls (calls w ++ issued raises (scoring_calls env d)) w,
     if existsb raises (scoring_calls env d) then Raise CollaboratorError
     else Ok (assess env d (clock w))).
Proof.
  intros Hwt. unfold Raising.analyze_traffic, bind, scoring_calls.
  rewrite (raising_score_traffic_run raises env d w Hwt).
  rewrite issued_app, existsb_app.
  destruct (existsb raises (lookup_calls env d)) eqn:Hl.
  - simpl orb. cbv iota. f_equal. f_equal. f_equal.
    unfold lookup_calls in *.
    destruct (cache_manager env && truthy (py_get d "source_ip")); [|discriminate].
    simpl in *. by rewrite orb_false_r in Hl; rewrite Hl.
  - simpl orb. cbv iota.
    unfold Raising.store_analysis, metric_calls, when, Raising.call, bind, ret, metric_of.
    change (risk_score (assess env d (clock w)))
      with (sum_weights (triggered_rules env d)).
    destruct (network_analytics env); simpl.
    + match goal with |- context [raises ?c] => destruct (raises c) end;
        unfold set_calls; simpl; by rewrite <- app_assoc.
    + by rewrite app_nil_r.
Qed.

Lemma raising_generate_alert_run raises env (alert_data : AlertData) w :
  Raising.generate_alert raises env alert_data w
  = (set_alerts (alerts w ++ [new_alert alert_data (length (alerts w)) (clock w)])
       (set_calls
          (calls w
           ++ issued raises
                (alert_calls env alert_data
                   (new_alert alert_data (length (alerts w)) (clock w)))) w),
     if existsb raises
          (alert_calls env alert_data
             (new_alert alert_data (length (alerts w)) (clock w)))
     then Raise CollaboratorError
     else Ok (new_alert alert_data (length (alerts w)) (clock w))).
Proof.
  unfold Raising.generate_alert, bind, get_world, py_now, modify, when,
    Raising.call, ret, alert_calls, event_of, new_alert.
  assert (Hsev : (match ad_severity alert_data with
                  | Some sev => if String.eqb sev "high" then 80 else 50
                  | None => 50
                  end)
                 = if bool_decide (ad_severity alert_data = Some "high")
                   then 80 else 50).
  { destruct (ad_severity alert_data) as [sev|]; [|reflexivity].
    destruct (String.eqb_spec sev "high") as [->|Hne]; [reflexivity|].
    rewrite bool_decide_eq_false_2; [reflexivity | congruence]. }
  rewrite <- Hsev.
  destruct (security_event env), (cache_manager env); simpl;
    repeat match goal with |- context [raises ?c] => destruct (raises c); simpl end;
    unfold set_alerts, set_calls; simpl; rewrite <- ?app_assoc, ?app_nil_r;
    reflexivity.
Qed.

Lemma raising_analyze_network_traffic_run raises env (d : pydict) w :
  dict_truthy d = true →
  well_typed d = true →
  Raising.analyze_network_traffic raises env (Some d) w
  = (set_alerts
       (alerts w
        ++ (if bool_decide (sum_weights (triggered_rules env d) > 50)
               && negb (existsb raises (scoring_calls env d))
            then [traffic_alert env d (length (alerts w)) (clock w)] else []))
       (set_calls
          (calls w
           ++ issued raises
                (scoring_calls env d
                 ++ alert_creation_calls env d (length (alerts w)) (clock w))) w),
     Ok (if existsb raises
              (scoring_calls env d
               ++ alert_creation_calls env d (length (alerts w)) (clock w))
         then (error_json "Internal server error", 500)
         else (analysis_json (assess env d (clock w)), 200))).
Proof.
  intros Hd Hwt. unfold Raising.analyze_network_traffic, try_except, bind.
  rewrite Hd. change (negb true) with false. cbv beta iota.
  rewrite (raising_analyze_traffic_run raises env d w Hwt).
  rewrite issued_app, existsb_app.
  destruct (existsb raises (scoring_calls env d)) eqn:Hs;
    [|rewrite (issued_none raises _ Hs)].
  - rewrite andb_false_r. simpl. unfold ret, set_alerts, set_calls. simpl.
    by rewrite app_nil_r.
  - rewrite andb_true_r. simpl orb. cbv iota beta.
    unfold alert_creation_calls, traffic_alert, when.
    change (risk_score (assess env d (clock w)))
      with (sum_weights (triggered_rules env d)).
    set (score := sum_weights (triggered_rules env d)).
    replace (50 <? score) with (bool_decide (score > 50))
      by (case_bool_decide; lia).
    destruct (bool_decide (score > 50)).
    + unfold bind.
      replace (80 <? score) with (bool_decide (score > 80))
        by (case_bool_decide; lia).
      change {| ad_severity := Some (if bool_decide (score > 80) then "high" else "medium");
                ad_type := Some "traffic_analysis";
                ad_description :=
                  Some ("High risk traffic detected (score: " +:+ pretty score +:+ ")");
                ad_source_ip := Some (py_get_default d "source_ip" (PStr "unknown"));
                ad_destination_ip :=
                  Some (py_get_default d "destination_ip" (PStr "unknown")) |}
        with (traffic_alert_data d score).
      rewrite raising_generate_alert_run. simpl alerts. simpl clock.
      set (alert := new_alert (traffic_alert_data d score) (length (alerts w)) (clock w)).
      destruct (existsb raises (alert_calls env (traffic_alert_data d score) alert));
        unfold ret, set_alerts, set_calls; simpl; rewrite <- ?app_assoc; reflexivity.
    + simpl. unfold ret, set_alerts, set_calls. simpl. by rewrite !app_nil_r.
Qed.

(** C5 (as stated) fails: a known threat with 20 failed authentications
    scores 130, the alert is appended, the database mirror raises, and the
    handler answers 500 instead of the assessment. *)
Lemma analyze_fails_when_create_event_raises :
  risk_score (assess env_full obs_threat 0) = 130
  ∧ (Raising.analyze_network_traffic create_event_raises env_full
       (Some obs_threat) (world0 0)).2
    = Ok (error_json "Internal server error", 500)
  ∧ map alert_status
      (alerts (Raising.analyze_network_traffic create_event_raises env_full
                 (Some obs_threat) (world0 0)).1)
    = ["active"].
Proof. vm_compute. auto. Qed.

(** C5 (amended).  For every non-empty well-typed observation, whatever the
    collaborators return and whichever of their calls raise: the analyze
    handler answers 200 with the assessment exactly when none of the calls it
    issues raises (the indicator lookup, the metric sample and, for a score
    above 50, the database mirror and the publish of the alert), and 500
    [Internal server error] otherwise; what a call returns, a reported
    failure included, changes nothing.  For a score above 50 the alert is
    appended before the mirror and the publish are called, so it stays in
    memory also when one of them raises and the answer is 500; it is absent
    only when the lookup or the metric sample raised before.  The calls
    issued are those of the plain run up to the first that raises. *)
Theorem analyze_returns_assessment_unless_call_raises
    (raises : Call -> bool) env (d : pydict) w :
  dict_truthy d = true →
  well_typed d = true →
  (Raising.analyze_network_traffic raises env (Some d) w).2
  = Ok (if existsb raises
             (scoring_calls env d
              ++ alert_creation_calls env d (length (alerts w)) (clock w))
        then (error_json "Internal server error", 500)
        else (analysis_json (assess env d (clock w)), 200))
  ∧ alerts (Raising.analyze_network_traffic raises env (Some d) w).1
    = alerts w
      ++ (if bool_decide (sum_weights (triggered_rules env d) > 50)
             && negb (existsb raises (scoring_calls env d))
          then [ {| alert_id := Z.of_nat (length (alerts w)) + 1;
                    alert_timestamp := clock w;
                    alert_severity :=
                      if bool_decide (sum_weights (triggered_rules env d) > 80)
                      then "high" else "medium";
                    alert_type := "traffic_analysis";
                    alert_description :=
                      "High risk traffic detected (score: "
                      +:+ pretty (sum_weights (triggered_rules env d)) +:+ ")";
                    alert_source_ip := py_get_default d "source_ip" (PStr "unknown");
                    alert_destination_ip :=
                      py_get_default d "destination_ip" (PStr "unknown");
                    alert_status := "active" |} ]
          else [])
  ∧ calls (Raising.analyze_network_traffic raises env (Some d) w).1
    = calls w
      ++ issued raises
           (scoring_calls env d
            ++ alert_creation_calls env d (length (alerts w)) (clock w)).
Proof.
  intros Hd Hwt.
  rewrite (raising_analyze_network_traffic_run raises env d w Hd Hwt).
  split; [reflexivity|]. split; reflexivity.
Qed.

(** The same observation with a publish that raises: 500, the alert is in
    memory, and the mirror and the publish were both called.  With a
    database and a channel that return a failure for every call, without
    raising: 200 with the assessment. *)
Lemma analyze_returns_assessment_unless_call_raises_example :
  dict_truthy obs_threat = true
  ∧ well_typed obs_threat = true
  ∧ (Raising.analyze_network_traffic publish_event_raises env_full
       (Some obs_threat) (world0 0)).2
    = Ok (error_json "Internal server error", 500)
  ∧ map alert_status
      (alerts (Raising.analyze_network_traffic publish_event_raises env_full
                 (Some obs_threat) (world0 0)).1)
    = ["active"]
  ∧ length (calls (Raising.analyze_network_traffic publish_event_raises env_full
                     (Some obs_threat) (world0 0)).1)
    = 4%nat
  ∧ (Raising.analyze_network_traffic (fun _ => false) env_reporting_failure
       (Some obs_threat) (world0 0)).2
    = Ok (analysis_json (assess env_full obs_threat 0), 200).
Proof.
  split; [reflexivity|]. split; [reflexivity|].
  destruct (analyze_returns_assessment_unless_call_raises publish_event_raises
              env_full obs_threat (world0 0) eq_refl eq_refl) as (Hr & Ha & Hc).
  destruct (analyze_returns_assessment_unless_call_raises (fun _ => false)
              env_reporting_failure obs_threat (world0 0) eq_refl eq_refl)
    as (Hr' & _).
  rewrite Hr, Ha, Hc, Hr'. repeat split; reflexivity.
Defined.

(** ** Frame rules: what a computation leaves untouched *)

Section Frame.
Context {X : Type} (f : World -> X).

Lemma preserves_ret {A} (a : A) : preserves f (ret a).
Proof. by intros w. Qed.

Lemma preserves_lift {A} (r : result A) : preserves f (lift r).
Proof. by intros w. Qed.

Lemma preserves_raise {A} (e : exn) : preserves f (@raise A e).
Proof. by intros w. Qed.

Lemma preserves_get_world : preserves f get_world.
Proof. by intros w. Qed.

Lemma preserves_py_now : preserves f py_now.
Proof. by intros w. Qed.

Lemma preserves_bind {A B} (m : M A) (k : A -> M B) :
  preserves f m → (∀ a, preserves f (k a)) → preserves f (bind m k).
Proof.
  intros Hm Hk w. unfold bind. specialize (Hm w).
  destruct (m w) as [w' [a|e]]; simpl in *; [|done].
  by rewrite (Hk a w').
Qed.

Lemma preserves_try_except {A} (body : M A) (handler : exn -> M A) :
  preserves f body → (∀ e, preserves f (handler e)) →
  preserves f (try_except body handler).
Proof.
  intros Hm Hk w. unfold try_except. specialize (Hm w).
  destruct (body w) as [w' [a|e]]; simpl in *; [done|].
  by rewrite (Hk e w').
Qed.

Lemma preserves_when (c : bool) (body : M unit) :
  preserves f body → preserves f (when c body).
Proof. intros H. destruct c; [done | apply preserves_ret]. Qed.

Lemma preserves_modify (g : World -> World) :
  (∀ w, f (g w) = f w) → preserves f (modify g).
Proof. intros H w. apply H. Qed.

Lemma preserves_call env (c : Call) :
  (∀ l w, f (set_calls l w) = f w) → preserves f (call env c).
Proof. intros H w. apply H. Qed.

Lemma preserves_check_threat_indicator env (ip : pyval) :
  (∀ l w, f (set_calls l w) = f w) → preserves f (check_threat_indicator env ip).
Proof. intros H w. apply H. Qed.

End Frame.

(** Decompose a computation along its binds and branches. *)
Ltac frame :=
  repeat first
    [ apply preserves_ret | apply preserves_lift | apply preserves_raise
    | apply preserves_get_world | apply preserves_py_now
    | apply preserves_bind; [|intros]
    | apply preserves_try_except; [|intros]
    | apply preserves_when
    | apply preserves_modify; intros; reflexivity
    | apply preserves_call; intros; reflexivity
    | apply preserves_check_threat_indicator; intros; reflexivity
    | match goal with
      | |- preserves _ (if ?c then _ else _) => destruct c
      | |- preserves _ (match ?x with _ => _ end) => destruct x
      | |- preserves _ (let '(_, _) := ?x in _) => destruct x
      end ].

Lemma score_traffic_preserves_alerts env d : preserves alerts (score_traffic env d).
Proof. unfold score_traffic. frame. Qed.

Lemma analyze_traffic_preserves_alerts env d : preserves alerts (analyze_traffic env d).
Proof. unfold analyze_traffic, score_traffic, store_analysis. frame. Qed.

Lemma analyze_traffic_preserves_clock env d : preserves clock (analyze_traffic env d).
Proof. unfold analyze_traffic, score_traffic, store_analysis. frame. Qed.

Lemma network_status_preserves_alerts env : preserves alerts (network_status env).
Proof. unfold network_status. frame. Qed.

Lemma get_alerts_preserves_alerts status_arg : preserves alerts (get_alerts status_arg).
Proof. unfold get_alerts. frame. Qed.

Lemma get_threat_indicators_preserves_alerts env :
  preserves alerts (get_threat_indicators env).
Proof. unfold get_threat_indicators. frame. Qed.

Lemma add_threat_indicator_preserves_alerts env body :
  preserves alerts (add_threat_indicator env body).
Proof. unfold add_threat_indicator. frame. Qed.

Lemma clear_cache_preserves_alerts env pattern_arg :
  preserves alerts (clear_cache env pattern_arg).
Proof. unfold clear_cache. frame. Qed.

(** ** Alerts under the operations *)

Lemma legal_status_elem (v : pyval) (s : string) :
  legal_status v = Some s ↔
  v = PStr s ∧ (s = "active" ∨ s = "resolved" ∨ s = "investigating").
Proof.
  unfold legal_status. destruct v as [|b|z|s'|l]; try (split; [discriminate | intros [? _]; discriminate]).
  simpl existsb.
  destruct (String.eqb_spec s' "active") as [->|Ha];
  [|destruct (String.eqb_spec s' "resolved") as [->|Hr];
    [|destruct (String.eqb_spec s' "investigating") as [->|Hi]]]; simpl; split;
    try (intros [= <-]; auto; fail);
    try (intros [[= <-] _]; reflexivity);
    try discriminate.
  intros [[= <-] [?|[?|?]]]; congruence.
Qed.

Lemma update_first_lookup id s l found l' :
  update_first id s l = Some (found, l') →
  ∀ i (b' : Alert), l' !! i = Some b' →
    ∃ b, l !! i = Some b ∧ (b' = b ∨ b' = set_status b s).
Proof.
  revert found l'. induction l as [|a rest IH]; intros found l' H; [discriminate|].
  simpl in H. destruct (alert_id a =? id).
  - injection H as <- <-. intros [|i] b' Hb; simpl in *.
    + injection Hb as <-. eauto.
    + eauto.
  - destruct (update_first id s rest) as [[f r]|] eqn:E; [|discriminate].
    injection H as <- <-. intros [|i] b' Hb; simpl in *.
    + injection Hb as <-. eauto.
    + eapply IH; eauto.
Qed.

Lemma update_alert_alerts id body w :
  alerts (update_alert id body w).1 = alerts w
  ∨ ∃ s found, legal_status (py_get (default ∅ body) "status") = Some s
       ∧ update_first id s (alerts w) = Some (found, alerts (update_alert id body w).1).
Proof.
  unfold update_alert, try_except, bind.
  destruct body as [d|]; simpl; [|by left].
  destruct (legal_status (py_get d "status")) as [s|] eqn:Hs; simpl; [|by left].
  destruct (update_first id s (alerts w)) as [[found l']|] eqn:Hu; simpl; [|by left].
  right. eauto.
Qed.

Lemma analyze_network_traffic_alerts env body w :
  alerts (analyze_network_traffic env body w).1 = alerts w
  ∨ ∃ alert_data,
      alerts (analyze_network_traffic env body w).1
      = alerts w ++ [new_alert alert_data (length (alerts w)) (clock w)].
Proof.
  unfold analyze_network_traffic, try_except.
  destruct body as [d|]; [|by left].
  destruct (dict_truthy d); cbn [negb]; [|by left].
  unfold bind.
  pose proof (analyze_traffic_preserves_alerts env d w) as Ha.
  pose proof (analyze_traffic_preserves_clock env d w) as Hc.
  destruct (analyze_traffic env d w) as [w1 [a|e]]; simpl in Ha, Hc; [|by left].
  unfold when. destruct (50 <? risk_score a); [|by left].
  unfold bind.
  match goal with |- context [generate_alert ?e ?ad ?w0] =>
    pose proof (generate_alert_alerts e ad w0) as (Hg & Hr & _);
    destruct (generate_alert e ad w0) as [w2 r2] end.
  simpl in Hg, Hr. subst r2. simpl. right. rewrite Hg, Ha, Hc. eauto.
Qed.

(** ** Which operations assign [stale] *)

(** Only the sweep assigns [stale]: after any other operation, an alert that
    is stale was stale before it, at the same place in the list. *)
Lemma stale_was_stale env (op : Op) w (i : nat) (a' : Alert) :
  is_sweep op = false →
  alerts (step env op w) !! i = Some a' →
  alert_status a' = "stale" →
  ∃ a, alerts w !! i = Some a ∧ alert_status a = "stale".
Proof.
  intros Hop Hi Hst.
  destruct op as [|body|status_arg|id body| |body|pattern_arg|];
    cbn [step] in Hi; try discriminate Hop.
  - rewrite network_status_preserves_alerts in Hi. eauto.
  - destruct (analyze_network_traffic_alerts env body w) as [H|[ad H]];
      rewrite H in Hi; [eauto|].
    destruct (decide (i < length (alerts w))%nat) as [Hlt|Hge].
    + rewrite lookup_app_l in Hi by done. eauto.
    + rewrite lookup_app_r in Hi by lia.
      destruct (i - length (alerts w))%nat; simpl in Hi; [|discriminate].
      injection Hi as <-. discriminate.
  - rewrite get_alerts_preserves_alerts in Hi. eauto.
  - destruct (update_alert_alerts id body w) as [H|(s & found & Hs & Hu)].
    + rewrite H in Hi. eauto.
    + destruct (update_first_lookup _ _ _ _ _ Hu i a' Hi) as (b & Hb & [->| ->]);
        [eauto|].
      apply legal_status_elem in Hs as [_ Hs]. simpl in Hst.
      destruct Hs as [->|[->| ->]]; discriminate.
  - rewrite get_threat_indicators_preserves_alerts in Hi. eauto.
  - rewrite add_threat_indicator_preserves_alerts in Hi. eauto.
  - rewrite clear_cache_preserves_alerts in Hi. eauto.
Qed.

(** ** Status updates *)

Lemma update_alert_run id (d : pydict) w :
  update_alert id (Some d) w
  = match legal_status (py_get d "status") with
    | None => (w, Ok (error_json "Invalid status", 400))
    | Some s =>
        match update_first id s (alerts w) with
        | Some (alert, alerts') => (set_alerts alerts' w, Ok (alert_json alert, 200))
        | None => (w, Ok (error_json "Alert not found", 404))
        end
    end.
Proof.
  unfold update_alert, try_except, bind. simpl.
  destruct (legal_status (py_get d "status")) as [s|]; [|reflexivity].
  simpl. destruct (update_first id s (alerts w)) as [[a l']|]; reflexivity.
Qed.

Lemma legal_statuses_elem (s : string) :
  s ∈ legal_statuses ↔ s = "active" ∨ s = "resolved" ∨ s = "investigating".
Proof.
  unfold legal_statuses. rewrite !elem_of_cons, elem_of_nil. tauto.
Qed.

Lemma legal_status_outside (d : pydict) :
  (∀ s, d !! "status" = Some (PStr s) → s ∉ legal_statuses) →
  legal_status (py_get d "status") = None.
Proof.
  intros H. destruct (legal_status (py_get d "status")) as [s|] eqn:E; [|done].
  apply legal_status_elem in E as [Hv Hs]. exfalso.
  unfold py_get in Hv. destruct (d !! "status") as [v|] eqn:Hd; simpl in Hv; [|done].
  subst v. apply (H s eq_refl). by apply legal_statuses_elem.
Qed.

Lemma legal_status_inside (d : pydict) (s : string) :
  d !! "status" = Some (PStr s) → s ∈ legal_statuses →
  legal_status (py_get d "status") = Some s.
Proof.
  intros Hd Hs. apply legal_status_elem. unfold py_get. rewrite Hd.
  split; [done|]. by apply legal_statuses_elem.
Qed.


Lemma update_first_known id s (pre post : list Alert) (a : Alert) :
  alert_id a = id → (∀ b, b ∈ pre → alert_id b ≠ id) →
  update_first id s (pre ++ a :: post)
  = Some (set_status a s, pre ++ set_status a s :: post).
Proof.
  intros Ha. induction pre as [|b pre IH]; intros H; simpl.
  - by rewrite (proj2 (Z.eqb_eq _ _) Ha).
  - destruct (Z.eqb_spec (alert_id b) id) as [He|_].
    + exfalso. apply (H b); [left | done].
    + rewrite IH; [done|]. intros c Hc. apply H. by right.
Qed.



(** C9.  The validity of the requested status is checked before the alert
    is looked up: a status outside [active], [investigating], [resolved], a
    value that is no string, or no [status] entry at all, is answered with
    [Invalid status] whatever the alerts are (so also for an unknown id), and
    [Alert not found] is only ever the answer to a legal status. *)
Theorem invalid_status_precedes_not_found id (d : pydict) w :
  ((∀ s, d !! "status" = Some (PStr s) → s ∉ legal_statuses) →
   update_alert id (Some d) w = (w, Ok (error_json "Invalid status", 400)))
  ∧ ((update_alert id (Some d) w).2 = Ok (error_json "Alert not found", 404) →
     ∃ s, d !! "status" = Some (PStr s) ∧ s ∈ legal_statuses).
Proof.
  rewrite update_alert_run. split.
  - intros H. by rewrite (legal_status_outside d H).
  - destruct (legal_status (py_get d "status")) as [s|] eqn:E; [|discriminate].
    intros _. apply legal_status_elem in E as [Hv Hs]. exists s.
    split; [|by apply legal_statuses_elem].
    unfold py_get in Hv. by destruct (d !! "status") as [v|]; simpl in Hv; subst.
Qed.

(** A request without a [status] entry for the unknown id 7 is answered with
    [Invalid status], not with [Alert not found]. *)
Lemma invalid_status_precedes_not_found_example :
  update_alert 7 (Some ∅) world_two_alerts
  = (world_two_alerts, Ok (error_json "Invalid status", 400)).
Proof.
  apply (invalid_status_precedes_not_found 7 ∅ world_two_alerts).
  intros s H. rewrite lookup_empty in H. discriminate.
Defined.

(** ** C10: listing alerts *)

Lemma filter_is_active (l : list Alert) :
  List.filter is_active l = filter (fun a => alert_status a = "active") l.
Proof.
  induction l as [|a l IH]; [done|]. simpl. unfold is_active at 1.
  destruct (String.eqb_spec (alert_status a) "active") as [He|Hne].
  - rewrite filter_cons_True by done. by rewrite IH.
  - by rewrite filter_cons_False.
Qed.

Lemma count_active_among (l : list Alert) : count_active l = active_among l.
Proof. unfold count_active, active_among. by rewrite filter_is_active. Qed.

(** C10.  For every value of the status filter other than exactly
    [active] (no filter, [resolved], [stale], any other string) the listing is
    the whole alert sequence in insertion order and the state is untouched;
    and for every filter, [active] included, the [active] count of the
    response is taken over all alerts. *)
Theorem get_alerts_filter_other_than_active (status_arg : option string) w :
  (status_arg ≠ Some "active" →
   get_alerts status_arg w
   = (w, Ok (alerts_json (alerts w) (Z.of_nat (length (alerts w)))
               (active_among (alerts w)), 200)))
  ∧ ∃ listed total,
      get_alerts status_arg w
      = (w, Ok (alerts_json listed total (active_among (alerts w)), 200)).
Proof.
  unfold get_alerts, bind, get_world, ret. rewrite count_active_among. split.
  - intros Hne.
    destruct (String.eqb_spec (default "all" status_arg) "active") as [He|_];
      [|reflexivity].
    exfalso. apply Hne. destruct status_arg as [s|]; simpl in He; [by subst|discriminate].
  - destruct (String.eqb (default "all" status_arg) "active"); eauto.
Qed.

(** With an active and a resolved alert, the filter [resolved] lists both
    and counts one active alert. *)
Lemma get_alerts_filter_other_than_active_example :
  get_alerts (Some "resolved") world_two_alerts
  = (world_two_alerts, Ok (alerts_json (alerts world_two_alerts) 2 1, 200)).
Proof.
  destruct (get_alerts_filter_other_than_active (Some "resolved") world_two_alerts)
    as [H _].
  rewrite H; [reflexivity | discriminate].
Defined.

(** ** C6: the stale sweep *)

Lemma mark_stale_due now (a : Alert) :
  mark_stale (now - hours_24) a
  = if decide (alert_status a = "active" ∧ now - alert_timestamp a > hours_24)
    then set_status a "stale" else a.
Proof.
  unfold mark_stale.
  destruct (String.eqb_spec (alert_status a) "active") as [He|Hne].
  - destruct (Z.ltb_spec (alert_timestamp a) (now - hours_24));
      case_decide as Hd; try reflexivity; exfalso.
    + apply Hd. split; [done | lia].
    + destruct Hd as [_ Hd]. lia.
  - case_decide as Hd; [|reflexivity]. by destruct Hd.
Qed.

Lemma mark_stale_idempotent cutoff (a : Alert) :
  mark_stale cutoff (mark_stale cutoff a) = mark_stale cutoff a.
Proof.
  unfold mark_stale.
  destruct (String.eqb (alert_status a) "active") eqn:Ha; [|by rewrite Ha].
  destruct (alert_timestamp a <? cutoff) eqn:Ht; [reflexivity|].
  by rewrite Ha, Ht.
Qed.

Lemma sweep_alerts_idempotent cutoff (l : list Alert) :
  sweep_alerts cutoff (sweep_alerts cutoff l) = sweep_alerts cutoff l.
Proof.
  unfold sweep_alerts. rewrite map_map.
  apply map_ext. intros a. apply mark_stale_idempotent.
Qed.

Lemma background_monitor_tick_alerts env w :
  alerts (background_monitor_tick env w).1
  = sweep_alerts (clock w - hours_24) (alerts w)
  ∧ clock (background_monitor_tick env w).1 = clock w + 60 * 1000000.
Proof.
  unfold background_monitor_tick, try_except, bind, py_now, modify, when, py_sleep.
  destruct (cache_manager env); simpl; auto.
Qed.

Lemma cache_set_twice (c : CacheManager.t) key v now ttl :
  (CacheManager.set (CacheManager.set c key v now ttl).1 key v now ttl).1
  = (CacheManager.set c key v now ttl).1.
Proof.
  unfold CacheManager.set. destruct (CacheManager.reachable c) eqn:Hr; simpl.
  - by rewrite insert_insert_eq.
  - by rewrite Hr.
Qed.

(** C6.  One pass of the background monitor at time [now] keeps the number
    and order of the alerts and every field of every alert but the status;
    the status becomes [stale] exactly for the alerts that are active and
    older than 24 hours ([now - created_at > ttl]) and stays what it was for
    every other alert; a second pass run with the same [now] ends in the very
    state the first pass ended in. *)
Theorem sweep_stale_exact_and_idempotent env w :
  length (alerts (background_monitor_tick env w).1) = length (alerts w)
  ∧ (∀ (i : nat) (a : Alert), alerts w !! i = Some a →
       alerts (background_monitor_tick env w).1 !! i
       = Some {| alert_id := alert_id a;
                 alert_timestamp := alert_timestamp a;
                 alert_severity := alert_severity a;
                 alert_type := alert_type a;
                 alert_description := alert_description a;
                 alert_source_ip := alert_source_ip a;
                 alert_destination_ip := alert_destination_ip a;
                 alert_status :=
                   if decide (alert_status a = "active"
                              ∧ clock w - alert_timestamp a > 24 * 3600 * 1000000)
                   then "stale" else alert_status a |})
  ∧ (background_monitor_tick env
       (set_clock (clock w) (background_monitor_tick env w).1)).1
    = (background_monitor_tick env w).1.
Proof.
  destruct (background_monitor_tick_alerts env w) as [Ha _].
  split; [|split].
  - rewrite Ha. unfold sweep_alerts. apply length_map.
  - intros i a Hi. rewrite Ha. unfold sweep_alerts.
    rewrite list_lookup_fmap, Hi. simpl. f_equal.
    rewrite mark_stale_due. unfold hours_24.
    case_decide; [reflexivity | by destruct a].
  - unfold background_monitor_tick, try_except, bind, py_now, modify, when, py_sleep.
    destruct (cache_manager env); simpl; unfold set_clock, set_alerts, set_cache,
      set_network_stats; simpl; f_equal;
      rewrite ?sweep_alerts_idempotent, ?cache_set_twice; reflexivity.
Qed.

(** Two days after start-up, of an active alert raised at time 0, an active
    alert raised exactly 24 hours ago and a resolved alert raised at time 0,
    the pass marks the first one stale and leaves the other two; a second
    pass at the same time changes nothing. *)
Lemma sweep_stale_exact_and_idempotent_example :
  alerts (background_monitor_tick env_full world_sweep).1
  = [ {| alert_id := 1; alert_timestamp := 0; alert_severity := "medium";
         alert_type := "traffic_analysis"; alert_description := "";
         alert_source_ip := PStr "10.0.0.9";
         alert_destination_ip := PStr "unknown";
         alert_status := "stale" |};
      {| alert_id := 2; alert_timestamp := 24 * 3600 * 1000000;
         alert_severity := "high";
         alert_type := "traffic_analysis"; alert_description := "";
         alert_source_ip := PStr "1.2.3.4";
         alert_destination_ip := PStr "unknown";
         alert_status := "active" |};
      {| alert_id := 3; alert_timestamp := 0; alert_severity := "high";
         alert_type := "traffic_analysis"; alert_description := "";
         alert_source_ip := PStr "1.2.3.4";
         alert_destination_ip := PStr "unknown";
         alert_status := "resolved" |} ]
  ∧ (background_monitor_tick env_full
       (set_clock (clock world_sweep)
          (background_monitor_tick env_full world_sweep).1)).1
    = (background_monitor_tick env_full world_sweep).1.
Proof.
  destruct (sweep_stale_exact_and_idempotent env_full world_sweep)
    as (Hlen & Hat & Hidem).
  split; [|exact Hidem].
  apply list_eq. intros [|[|[|i]]].
  - rewrite (Hat 0%nat _ eq_refl). reflexivity.
  - rewrite (Hat 1%nat _ eq_refl). reflexivity.
  - rewrite (Hat 2%nat _ eq_refl). reflexivity.
  - rewrite lookup_ge_None_2 by (rewrite Hlen; simpl; lia). reflexivity.
Defined.

(** ** C3: the [stale] status *)

Lemma update_first_at id s (l : list Alert) found l' :
  update_first id s l = Some (found, l') →
  ∀ (i : nat) (b : Alert), l !! i = Some b →
    l' !! i = Some b ∨ (alert_id b = id ∧ l' !! i = Some (set_status b s)).
Proof.
  revert found l'. induction l as [|a rest IH]; intros found l' H; [discriminate|].
  simpl in H. destruct (Z.eqb_spec (alert_id a) id) as [He|Hne].
  - injection H as <- <-. intros [|i] b Hb; simpl in *.
    + injection Hb as <-. by right.
    + by left.
  - destruct (update_first id s rest) as [[f r]|] eqn:E; [|discriminate].
    injection H as <- <-. intros [|i] b Hb; simpl in *.
    + by left.
    + eapply IH; eauto.
Qed.

Lemma mark_stale_inactive cutoff (a : Alert) :
  alert_status a ≠ "active" → mark_stale cutoff a = a.
Proof.
  intros H. unfold mark_stale.
  by destruct (String.eqb_spec (alert_status a) "active").
Qed.

(** Any operation but a status update leaves a stale alert as it is. *)
Lemma stale_kept env (op : Op) w (i : nat) (a : Alert) :
  is_status_update op = false →
  alerts w !! i = Some a → alert_status a = "stale" →
  alerts (step env op w) !! i = Some a.
Proof.
  intros Hop Hi Hst.
  destruct op as [|body|status_arg|id body| |body|pattern_arg|];
    cbn [step]; try discriminate Hop.
  - by rewrite network_status_preserves_alerts.
  - destruct (analyze_network_traffic_alerts env body w) as [H|[ad H]];
      rewrite H; [done|]. by apply lookup_app_l_Some.
  - by rewrite get_alerts_preserves_alerts.
  - by rewrite get_threat_indicators_preserves_alerts.
  - by rewrite add_threat_indicator_preserves_alerts.
  - by rewrite clear_cache_preserves_alerts.
  - destruct (background_monitor_tick_alerts env w) as [-> _]. unfold sweep_alerts.
    rewrite list_lookup_fmap, Hi. simpl. f_equal.
    apply mark_stale_inactive. rewrite Hst. discriminate.
Qed.

(** A status update changes an alert only when it carries a legal status and
    the alert's id, and then sets that status. *)
Lemma update_alert_at id body w (i : nat) (a : Alert) :
  alerts w !! i = Some a →
  alerts (update_alert id body w).1 !! i = Some a
  ∨ ∃ (d : pydict) (s : string),
      body = Some d ∧ d !! "status" = Some (PStr s) ∧ s ∈ legal_statuses
      ∧ alert_id a = id
      ∧ alerts (update_alert id body w).1 !! i = Some (set_status a s).
Proof.
  intros Hi.
  destruct (update_alert_alerts id body w) as [H|(s & found & Hs & Hu)].
  - left. by rewrite H.
  - destruct (update_first_at _ _ _ _ _ Hu i a Hi) as [H|[Hid H]]; [by left|].
    right. destruct body as [d|]; [|discriminate Hs]. simpl in Hs.
    apply legal_status_elem in Hs as [Hv Hs]. exists d, s.
    split; [done|]. split.
    { unfold py_get in Hv. by destruct (d !! "status") as [v|]; simpl in Hv; subst. }
    split; [by apply legal_statuses_elem|]. done.
Qed.

(** C3 (as stated) fails: a status update with a legal status succeeds on a
    stale alert and makes it active again. *)
Lemma update_alert_revives_stale_alert :
  map alert_status (alerts world_stale) = ["stale"]
  ∧ (update_alert 1 (Some {[ "status" := PStr "active" ]}) world_stale).2
    = Ok (alert_json (set_status stale_alert "active"), 200)
  ∧ map alert_status
      (alerts (update_alert 1 (Some {[ "status" := PStr "active" ]}) world_stale).1)
    = ["active"].
Proof. vm_compute. auto. Qed.

(** C3 (amended).  The status [stale] is reached only through the sweep and
    is left only through a status update:
    - no operation other than the sweep assigns [stale]: an alert that is
      stale after another operation was stale before it;
    - every operation other than a status update, the sweep included, leaves
      a stale alert exactly as it is;
    - a status update leaves a stale alert as it is unless it carries a
      status among [active], [investigating], [resolved] and the id of the
      alert, and then only the status of the alert changes, to the requested
      one;
    - and it does change it: a status update with such a status and the id
      of a stale alert (the first alert with that id) answers 200 with the
      alert and sets the requested status. *)
Theorem stale_left_only_by_status_update env (op : Op) w :
  (is_sweep op = false →
   ∀ (i : nat) (a' : Alert),
     alerts (step env op w) !! i = Some a' → alert_status a' = "stale" →
     ∃ a, alerts w !! i = Some a ∧ alert_status a = "stale")
  ∧ (is_status_update op = false →
     ∀ (i : nat) (a : Alert),
       alerts w !! i = Some a → alert_status a = "stale" →
       alerts (step env op w) !! i = Some a)
  ∧ (∀ id body (i : nat) (a : Alert),
       op = op_update_alert id body →
       alerts w !! i = Some a → alert_status a = "stale" →
       alerts (step env op w) !! i = Some a
       ∨ ∃ (d : pydict) (s : string),
           body = Some d ∧ d !! "status" = Some (PStr s) ∧ s ∈ legal_statuses
           ∧ alert_id a = id
           ∧ alerts (step env op w) !! i
             = Some {| alert_id := alert_id a;
                       alert_timestamp := alert_timestamp a;
                       alert_severity := alert_severity a;
                       alert_type := alert_type a;
                       alert_description := alert_description a;
                       alert_source_ip := alert_source_ip a;
                       alert_destination_ip := alert_destination_ip a;
                       alert_status := s |})
  ∧ (∀ id (d : pydict) (s : string) pre (a : Alert) post,
       op = op_update_alert id (Some d) →
       d !! "status" = Some (PStr s) → s ∈ legal_statuses →
       alerts w = pre ++ a :: post → alert_status a = "stale" →
       alert_id a = id → (∀ b, b ∈ pre → alert_id b ≠ id) →
       (update_alert id (Some d) w).2
       = Ok (alert_json {| alert_id := alert_id a;
                           alert_timestamp := alert_timestamp a;
                           alert_severity := alert_severity a;
                           alert_type := alert_type a;
                           alert_description := alert_description a;
                           alert_source_ip := alert_source_ip a;
                           alert_destination_ip := alert_destination_ip a;
                           alert_status := s |}, 200)
       ∧ alerts (step env op w)
         = pre ++ {| alert_id := alert_id a;
                     alert_timestamp := alert_timestamp a;
                     alert_severity := alert_severity a;
                     alert_type := alert_type a;
                     alert_description := alert_description a;
                     alert_source_ip := alert_source_ip a;
                     alert_destination_ip := alert_destination_ip a;
                     alert_status := s |} :: post).
Proof.
  split; [|split; [|split]].
  - intros Hop i a' Hi Hst. by eapply stale_was_stale.
  - intros Hop i a Hi Hst. by apply stale_kept.
  - intros id body i a -> Hi _. cbn [step].
    destruct (update_alert_at id body w i a Hi) as [H|(d & s & H)]; [by left|].
    right. exists d, s. exact H.
  - intros id d s pre a post -> Hd Hs Hw _ Ha Hpre. cbn [step].
    rewrite update_alert_run, (legal_status_inside d s Hd Hs), Hw,
      (update_first_known id s pre post a Ha Hpre).
    split; reflexivity.
Qed.

(** A sweep leaves the stale alert of a one-alert state as it is, and a
    status update asking for [investigating] with its id answers 200 and
    makes it [investigating]. *)
Lemma stale_left_only_by_status_update_example :
  alerts (step env_full op_background_tick world_stale) !! 0%nat
  = Some {| alert_id := 1; alert_timestamp := 0; alert_severity := "medium";
            alert_type := "traffic_analysis"; alert_description := "";
            alert_source_ip := PStr "10.0.0.9";
            alert_destination_ip := PStr "unknown";
            alert_status := "stale" |}
  ∧ (update_alert 1 (Some status_investigating) world_stale).2
    = Ok (alert_json
            {| alert_id := 1; alert_timestamp := 0; alert_severity := "medium";
               alert_type := "traffic_analysis"; alert_description := "";
               alert_source_ip := PStr "10.0.0.9";
               alert_destination_ip := PStr "unknown";
               alert_status := "investigating" |}, 200)
  ∧ alerts (step env_full (op_update_alert 1 (Some status_investigating)) world_stale)
    = [ {| alert_id := 1; alert_timestamp := 0; alert_severity := "medium";
           alert_type := "traffic_analysis"; alert_description := "";
           alert_source_ip := PStr "10.0.0.9";
           alert_destination_ip := PStr "unknown";
           alert_status := "investigating" |} ].
Proof.
  destruct (stale_left_only_by_status_update env_full op_background_tick world_stale)
    as (_ & Hkeep & _).
  destruct (stale_left_only_by_status_update env_full
              (op_update_alert 1 (Some status_investigating)) world_stale)
    as (_ & _ & _ & Hset).
  split; [exact (Hkeep eq_refl 0%nat stale_alert eq_refl eq_refl)|].
  apply (Hset 1 status_investigating "investigating" [] stale_alert []);
    try reflexivity.
  - unfold legal_statuses. rewrite !elem_of_cons. auto.
  - intros b Hb. by apply elem_of_nil in Hb.
Defined.

(** ** C7: scoring is deterministic and reads only the indicator lookup *)

(** Case analysis on everything the scoring branches on. *)
Ltac score_cases env d :=
  unfold score_traffic, bind, py_now, lift, ret, check_threat_indicator,
    py_index, lookup_calls, py_get;
  destruct (cache_manager env); simpl andb;
  destruct (d !! "source_ip"); cbn [from_option truthy];
  repeat match goal with
         | |- context [truthy ?v] => destruct (truthy v)
         | |- context [threat_lookup env ?v] => destruct (threat_lookup env v)
         end;
  destruct (py_gt (py_get_default d "connection_count" (PInt 0)) 1000) as [[|]|];
  destruct (py_gt (py_get_default d "failed_auth_attempts" (PInt 0)) 10) as [[|]|].

Lemma score_traffic_world env (d : pydict) w :
  (score_traffic env d w).1 = set_calls (calls w ++ lookup_calls env d) w.
Proof. score_cases env d; simpl; rewrite ?set_calls_id; reflexivity. Qed.

Lemma score_traffic_untimed env (d : pydict) w1 w2 :
  result_map untimed (score_traffic env d w1).2
  = result_map untimed (score_traffic env d w2).2.
Proof. score_cases env d; reflexivity. Qed.

Lemma analyze_traffic_split env (d : pydict) w :
  (analyze_traffic env d w).2 = (score_traffic env d w).2
  ∧ (analyze_traffic env d w).1
    = set_calls
        (calls w ++ lookup_calls env d
         ++ match (score_traffic env d w).2 with
            | Ok analysis => metric_calls env d (risk_score analysis)
            | Raise _ => []
            end) w.
Proof.
  unfold analyze_traffic, bind.
  pose proof (score_traffic_world env d w) as Hw.
  destruct (score_traffic env d w) as [w1 [a|e]]; simpl in Hw; subst w1; simpl.
  - unfold store_analysis, metric_calls, when, call, bind, ret, metric_of.
    destruct (network_analytics env); simpl.
    + split; [done|]. unfold set_calls; simpl. by rewrite <- app_assoc.
    + by rewrite app_nil_r.
  - by rewrite app_nil_r.
Qed.

(** C7.  Two calls of [analyze_traffic] with the same observation and the
    same indicator snapshot, from any two states, return the same risk score,
    threats and recommendations (or raise the same error); the scoring of the
    rules leaves the whole state as it was apart from at most one indicator
    lookup; and all [analyze_traffic] adds to that is the metric sample it
    stores once the scoring has returned. *)
Theorem analyze_traffic_deterministic env (d : pydict) w1 w2 :
  result_map untimed (analyze_traffic env d w1).2
  = result_map untimed (analyze_traffic env d w2).2
  ∧ (score_traffic env d w1).1 = set_calls (calls w1 ++ lookup_calls env d) w1
  ∧ (length (lookup_calls env d) ≤ 1)%nat
  ∧ (analyze_traffic env d w1).1
    = set_calls
        (calls w1 ++ lookup_calls env d
         ++ match (score_traffic env d w1).2 with
            | Ok analysis =>
                if db_manager env
                then [record_metric_call (metric_of d (risk_score analysis))]
                else []
            | Raise _ => []
            end) w1.
Proof.
  destruct (analyze_traffic_split env d w1) as [Hr1 Hw1].
  destruct (analyze_traffic_split env d w2) as [Hr2 _].
  split; [|split; [|split]].
  - rewrite Hr1, Hr2. apply score_traffic_untimed.
  - apply score_traffic_world.
  - unfold lookup_calls. destruct (_ && _); simpl; lia.
  - exact Hw1.
Qed.

(** The known threat scores 130 in the empty start-up state and in a state
    with alerts at another time alike. *)
Lemma analyze_traffic_deterministic_example :
  result_map untimed (analyze_traffic env_full obs_threat (world0 0)).2
  = Ok (130, ["Known threat IP: 1.2.3.4"; "Multiple failed authentication attempts"],
        ["Block IP immediately"; "Implement rate limiting and block suspicious IPs"])
  ∧ result_map untimed (analyze_traffic env_full obs_threat world_stale).2
    = result_map untimed (analyze_traffic env_full obs_threat (world0 0)).2.
Proof.
  split; [reflexivity|].
  exact (proj1 (analyze_traffic_deterministic env_full obs_threat world_stale (world0 0))).
Defined.

(** ** C8: cache-aside reads of the network statistics *)

Lemma glob_star (s : list ascii) : CacheManager.glob ["*"%char] s = true.
Proof. induction s as [|c s IH]; [reflexivity|]. simpl in *. exact IH. Qed.

Lemma glob_match_star (key : string) : CacheManager.glob_match "*" key = true.
Proof. unfold CacheManager.glob_match. apply glob_star. Qed.

Lemma clear_cache_star (c : CacheManager.t) :
  CacheManager.clear_cache c "*"
  = if CacheManager.reachable c
    then ({| CacheManager.reachable := true; CacheManager.entries := ∅ |}, true)
    else (c, false).
Proof.
  unfold CacheManager.clear_cache. destruct (CacheManager.reachable c); [|done].
  do 2 f_equal. apply map_eq. intros k. rewrite lookup_empty.
  apply map_lookup_filter_None. right. intros v _. simpl.
  by rewrite glob_match_star.
Qed.

Lemma clear_cache_star_world env w :
  (clear_cache env (Some "*") w).1
  = if cache_manager env && CacheManager.reachable (cache w)
    then set_cache {| CacheManager.reachable := true; CacheManager.entries := ∅ |} w
    else w.
Proof.
  unfold clear_cache, try_except, bind, get_world, modify, ret.
  destruct (cache_manager env); cbn [from_option andb fst snd]; [|reflexivity].
  rewrite clear_cache_star.
  destruct (CacheManager.reachable (cache w)); cbn [fst snd]; [reflexivity|].
  by destruct w.
Qed.

Lemma network_status_miss env w :
  (if cache_manager env
   then CacheManager.get_network_stats (cache w) (clock w) else None) = None →
  network_status env w
  = (if cache_manager env
     then set_cache (CacheManager.set (cache w) CacheManager.stats_key
                       (CacheManager.stats_value (network_stats w)) (clock w)
                       (stats_ttl env)).1 w
     else w,
     Ok ((status_json (network_stats w) (active_among (alerts w)) (clock w), 200),
         from_origin)).
Proof.
  intros H. unfold network_status, bind, get_world, py_now. rewrite H.
  rewrite <- count_active_among. destruct (cache_manager env); reflexivity.
Qed.

Lemma network_status_hit env w (s : Stats) :
  cache_manager env = true →
  CacheManager.get_network_stats (cache w) (clock w) = Some s →
  network_status env w
  = (w, Ok ((status_json s (active_among (alerts w)) (clock w), 200), from_cache)).
Proof.
  intros Hc H. unfold network_status, bind, get_world, py_now. rewrite Hc, H.
  by rewrite <- count_active_among.
Qed.

Lemma get_network_stats_after_set (c : CacheManager.t) (s : Stats) now ttl later :
  CacheManager.reachable c = true → later < now + ttl →
  CacheManager.get_network_stats
    (CacheManager.set c CacheManager.stats_key (CacheManager.stats_value s) now ttl).1
    later
  = Some s.
Proof.
  intros Hr Hlt. unfold CacheManager.get_network_stats, CacheManager.get, CacheManager.set.
  rewrite Hr. simpl. rewrite lookup_insert_eq.
  by rewrite (proj2 (Z.ltb_lt _ _) Hlt).
Qed.

Lemma get_network_stats_unreachable (c : CacheManager.t) now :
  CacheManager.reachable c = false → CacheManager.get_network_stats c now = None.
Proof.
  intros Hr. unfold CacheManager.get_network_stats, CacheManager.get. by rewrite Hr.
Qed.

(** C8.  After the whole cache is invalidated with the pattern [*], the
    next network-status read finds no entry, answers with the authoritative
    statistics and stores them; a read that follows within the lifetime of
    the entry answers with the same statistics, from the cache when the
    backend is reachable and from the authoritative state when it is not: an
    unreachable backend never makes a read fail or return other than the
    authoritative statistics. *)
Theorem network_status_cache_aside env w (dt : Z) :
  0 ≤ dt < stats_ttl env →
  (network_status env (clear_cache env (Some "*") w).1).2
  = Ok ((status_json (network_stats w) (active_among (alerts w)) (clock w), 200),
        from_origin)
  ∧ (network_status env
       (set_clock (clock w + dt)
          (network_status env (clear_cache env (Some "*") w).1).1)).2
    = Ok ((status_json (network_stats w) (active_among (alerts w)) (clock w + dt), 200),
          if cache_manager env && CacheManager.reachable (cache w)
          then from_cache else from_origin).
Proof.
  intros Hdt.
  rewrite clear_cache_star_world.
  destruct (cache_manager env) eqn:Hc; cbn [andb].
  - destruct (CacheManager.reachable (cache w)) eqn:Hr.
    + set (w1 := set_cache _ w).
      assert (Hmiss : (if cache_manager env
                       then CacheManager.get_network_stats (cache w1) (clock w1)
                       else None) = None) by (by rewrite Hc).
      rewrite (network_status_miss env w1 Hmiss), Hc. cbn [fst snd].
      split; [reflexivity|].
      rewrite (network_status_hit env _ (network_stats w) Hc); [reflexivity|].
      cbn [cache clock set_clock set_cache network_stats].
      apply get_network_stats_after_set; [reflexivity | subst w1; simpl; lia].
    + assert (Hmiss : ∀ w', CacheManager.reachable (cache w') = false →
                (if cache_manager env
                 then CacheManager.get_network_stats (cache w') (clock w')
                 else None) = None).
      { intros w' H. rewrite Hc. by apply get_network_stats_unreachable. }
      rewrite (network_status_miss env w (Hmiss w Hr)), Hc. cbn [fst snd].
      split; [reflexivity|].
      rewrite network_status_miss.
      * reflexivity.
      * apply Hmiss. simpl. unfold CacheManager.set. by rewrite Hr.
  - assert (Hmiss : ∀ w', (if cache_manager env
                           then CacheManager.get_network_stats (cache w') (clock w')
                           else None) = None) by (by rewrite Hc).
    rewrite (network_status_miss env w (Hmiss w)), Hc. cbn [fst snd].
    split; [reflexivity|].
    by rewrite (network_status_miss env _ (Hmiss _)).
Qed.

(** With a stale snapshot cached: invalidation, then a read from the
    authoritative statistics, then a read one second later from the cache
    with the same statistics; with the backend down both reads come from the
    authoritative state. *)
Lemma network_status_cache_aside_example :
  0 ≤ 1000000 < stats_ttl env_full
  ∧ (network_status env_full world_cached).2
    = Ok ((status_json stats0 1 1000, 200), from_cache)
  ∧ (network_status env_full (clear_cache env_full (Some "*") world_cached).1).2
    = Ok ((status_json (network_stats world_cached) 1 1000, 200), from_origin)
  ∧ (network_status env_full
       (set_clock (clock world_cached + 1000000)
          (network_status env_full
             (clear_cache env_full (Some "*") world_cached).1).1)).2
    = Ok ((status_json (network_stats world_cached) 1 1001000, 200), from_cache)
  ∧ (network_status env_full
       (set_clock (clock world_cache_down + 1000000)
          (network_status env_full
             (clear_cache env_full (Some "*") world_cache_down).1).1)).2
    = Ok ((status_json (network_stats world_cached) 1 1001000, 200), from_origin).
Proof.
  assert (Hdt : 0 ≤ 1000000 < stats_ttl env_full) by (simpl; lia).
  split; [exact Hdt|]. split; [reflexivity|].
  destruct (network_status_cache_aside env_full world_cached 1000000 Hdt) as [H1 H2].
  destruct (network_status_cache_aside env_full world_cache_down 1000000 Hdt) as [_ H3].
  split; [exact H1|]. split; [exact H2 | exact H3].
Defined.

(** ** Requests the handlers turn away *)

Lemma dict_truthy_nonempty (d : pydict) : dict_truthy d = true ↔ d ≠ ∅.
Proof.
  unfold dict_truthy. rewrite <- map_to_list_empty_iff.
  destruct (map_to_list d); split; intros H; congruence.
Qed.

Lemma dict_truthy_lookup (d : pydict) k v : d !! k = Some v → dict_truthy d = true.
Proof.
  intros H. apply dict_truthy_nonempty. intros ->. by rewrite lookup_empty in H.
Qed.

(** An absent or empty observation is turned away with 400
    [No traffic data provided] before any scoring: nothing is looked up,
    recorded or changed. *)
Lemma analyze_rejects_empty_observation env w :
  analyze_network_traffic env None w
  = (w, Ok (error_json "No traffic data provided", 400))
  ∧ analyze_network_traffic env (Some ∅) w
    = (w, Ok (error_json "No traffic data provided", 400)).
Proof. split; reflexivity. Qed.

(** A status update whose body is JSON [null] fails on [data.get] and
    is answered with 500 [Internal server error]; no alert changes. *)
Lemma update_alert_null_body id w :
  update_alert id None w = (w, Ok (error_json "Internal server error", 500)).
Proof. reflexivity. Qed.

(** An observation whose connection count is a string makes the
    comparison raise; the analyze handler answers 500
    [Internal server error], creates no alert and records no metric
    sample. *)
Lemma analyze_ill_typed_connection_count env (d : pydict) w (s : string) :
  d !! "connection_count" = Some (PStr s) →
  (analyze_network_traffic env (Some d) w).2
  = Ok (error_json "Internal server error", 500)
  ∧ alerts (analyze_network_traffic env (Some d) w).1 = alerts w
  ∧ metrics_in (calls (analyze_network_traffic env (Some d) w).1)
    = metrics_in (calls w).
Proof.
  intros Hd.
  assert (Hs : ∀ w', (score_traffic env d w').2 = Raise TypeError).
  { intros w'. unfold score_traffic, bind, py_now, lift, ret, check_threat_indicator.
    unfold py_get_default at 1. rewrite Hd.
    unfold py_get, py_index.
    destruct (d !! "source_ip") as [ip|]; cbn [from_option id truthy py_gt];
      rewrite ?andb_false_r; [|reflexivity].
    destruct (cache_manager env && truthy ip); [|reflexivity]. cbn.
    destruct (threat_lookup env ip); reflexivity. }
  destruct (analyze_traffic_split env d w) as [Hr Hw]. rewrite Hs in Hr, Hw.
  assert (Hrun : analyze_network_traffic env (Some d) w
                 = ((analyze_traffic env d w).1,
                    Ok (error_json "Internal server error", 500))).
  { unfold analyze_network_traffic, try_except.
    rewrite (dict_truthy_lookup d _ _ Hd). cbn [negb]. unfold bind at 1.
    destruct (analyze_traffic env d w) as [w1 r1]. simpl in Hr. by subst r1. }
  rewrite Hrun, Hw. cbn [fst snd].
  split; [reflexivity|]. split; [reflexivity|].
  unfold metrics_in, lookup_calls. cbn [calls set_calls]. rewrite !flat_map_app.
  destruct (cache_manager env && truthy (py_get d "source_ip")); simpl;
    by rewrite app_nil_r.
Qed.

(** The known threat sending a string as connection count gets 500 and raises
    no alert. *)
Lemma analyze_ill_typed_connection_count_example :
  obs_ill_typed !! "connection_count" = Some (PStr "many")
  ∧ (analyze_network_traffic env_full (Some obs_ill_typed) (world0 0)).2
    = Ok (error_json "Internal server error", 500)
  ∧ alerts (analyze_network_traffic env_full (Some obs_ill_typed) (world0 0)).1 = [].
Proof.
  split; [reflexivity|].
  destruct (analyze_ill_typed_connection_count env_full obs_ill_typed (world0 0)
              "many" eq_refl) as (Hr & Ha & _).
  split; [exact Hr | exact Ha].
Defined.

(** * Further properties of the code *)

(** ** Alert ids and the life of an alert *)

Lemma set_status_same (a : Alert) : set_status a (alert_status a) = a.
Proof. by destruct a. Qed.

(** What any operation does to the alert list: each alert stays in place and
    keeps everything but its status, and at most one alert, numbered after
    the last, is appended. *)
Lemma step_alerts env (op : Op) w :
  (∀ (i : nat) (a : Alert), alerts w !! i = Some a →
     ∃ s, alerts (step env op w) !! i = Some (set_status a s))
  ∧ (length (alerts (step env op w)) = length (alerts w)
     ∨ ∃ alert_data,
         alerts (step env op w)
         = alerts w ++ [new_alert alert_data (length (alerts w)) (clock w)]).
Proof.
  assert (Hsame : ∀ l : list Alert, l = alerts w →
            (∀ (i : nat) (a : Alert), alerts w !! i = Some a →
               ∃ s, l !! i = Some (set_status a s))
            ∧ (length l = length (alerts w)
               ∨ ∃ alert_data,
                   l = alerts w ++ [new_alert alert_data (length (alerts w)) (clock w)])).
  { intros l ->. split; [|by left].
    intros i a Hi. exists (alert_status a). by rewrite set_status_same. }
  destruct op as [|body|status_arg|id body| |body|pattern_arg|]; cbn [step].
  - apply Hsame, network_status_preserves_alerts.
  - destruct (analyze_network_traffic_alerts env body w) as [H|[ad H]];
      [by apply Hsame|]. rewrite H. split; [|right; eauto].
    intros i a Hi. exists (alert_status a).
    rewrite set_status_same. by apply lookup_app_l_Some.
  - apply Hsame, get_alerts_preserves_alerts.
  - destruct (update_alert_alerts id body w) as [H|(s & found & _ & Hu)];
      [by apply Hsame|].
    assert (Hlen : length (alerts (update_alert id body w).1) = length (alerts w)).
    { clear -Hu. revert Hu. generalize (alerts (update_alert id body w).1).
      revert found. induction (alerts w) as [|a rest IH]; intros found l' H;
        [discriminate|].
      simpl in H. destruct (alert_id a =? id); [by injection H as <- <-|].
      destruct (update_first id s rest) as [[f r]|] eqn:E; [|discriminate].
      injection H as <- <-. simpl. f_equal. by eapply IH. }
    split; [|by left]. intros i a Hi.
    destruct (alerts (update_alert id body w).1 !! i) as [b'|] eqn:Hb.
    + destruct (update_first_lookup _ _ _ _ _ Hu i b' Hb) as (b & Hb0 & [->| ->]);
        rewrite Hi in Hb0; injection Hb0 as <-; [|eauto].
      exists (alert_status a). by rewrite set_status_same.
    + apply lookup_ge_None in Hb. apply lookup_lt_Some in Hi. lia.
  - apply Hsame, get_threat_indicators_preserves_alerts.
  - apply Hsame, add_threat_indicator_preserves_alerts.
  - apply Hsame, clear_cache_preserves_alerts.
  - destruct (background_monitor_tick_alerts env w) as [-> _]. unfold sweep_alerts.
    split; [|left; apply length_map].
    intros i a Hi. rewrite list_lookup_fmap, Hi. simpl. unfold mark_stale.
    destruct (String.eqb (alert_status a) "active");
      [destruct (alert_timestamp a <? clock w - hours_24)|]; eauto;
      exists (alert_status a); by rewrite set_status_same.
Qed.

Lemma set_status_set_status (a : Alert) s s' :
  set_status (set_status a s) s' = set_status a s'.
Proof. reflexivity. Qed.

Lemma step_ids_sequential env (op : Op) w :
  ids_sequential (alerts w) → ids_sequential (alerts (step env op w)).
Proof.
  intros Hids i a' Hi.
  destruct (step_alerts env op w) as [Hkeep Hlen].
  destruct (alerts w !! i) as [a|] eqn:Ha.
  - destruct (Hkeep i a Ha) as [s Hs]. rewrite Hs in Hi. injection Hi as <-.
    simpl. by apply Hids.
  - apply lookup_ge_None in Ha. destruct Hlen as [Hlen|[ad Hlen]].
    + apply lookup_lt_Some in Hi. lia.
    + rewrite Hlen in Hi. rewrite lookup_app_r in Hi by lia.
      destruct (i - length (alerts w))%nat eqn:Hd; simpl in Hi; [|discriminate].
      injection Hi as <-. simpl. lia.
Qed.

(** X1.  Alert ids count the alerts: if the alert at each position [i] has
    id [i + 1] (as in the empty list at start-up), this is still so after any
    sequence of operations of the core, the sweep included; ids are therefore
    unique, contiguous from 1 and in insertion order. *)
Theorem alert_ids_stay_sequential env (ops : list Op) w :
  ids_sequential (alerts w) → ids_sequential (alerts (run env ops w)).
Proof.
  revert w. induction ops as [|op ops IH]; intros w H; [exact H|].
  simpl. apply IH. by apply step_ids_sequential.
Qed.

(** Two analyses that raise alerts, a status update and a sweep after
    start-up leave the ids 1 and 2. *)
Lemma alert_ids_stay_sequential_example :
  ids_sequential (alerts (world0 0))
  ∧ map alert_id
      (alerts (run env_full
                 [op_analyze (Some obs_threat); op_analyze (Some obs_volume_auth);
                  op_update_alert 1 (Some {[ "status" := PStr "resolved" ]});
                  op_background_tick] (world0 0)))
    = [1; 2]
  ∧ ids_sequential
      (alerts (run env_full
                 [op_analyze (Some obs_threat); op_analyze (Some obs_volume_auth);
                  op_update_alert 1 (Some {[ "status" := PStr "resolved" ]});
                  op_background_tick] (world0 0))).
Proof.
  assert (H0 : ids_sequential (alerts (world0 0))) by (intros i a H; discriminate).
  split; [exact H0|]. split; [reflexivity|].
  exact (alert_ids_stay_sequential env_full _ (world0 0) H0).
Defined.

(** X2.  Alerts are never removed, reordered or edited: after any sequence
    of operations every alert is still at its place in the list with the same
    id, time stamp, severity, type, description and addresses; only its
    status may differ. *)
Theorem alerts_keep_all_but_status env (ops : list Op) w (i : nat) (a : Alert) :
  alerts w !! i = Some a →
  ∃ s, alerts (run env ops w) !! i = Some (set_status a s).
Proof.
  revert w a. induction ops as [|op ops IH]; intros w a Hi.
  - exists (alert_status a). by rewrite set_status_same.
  - simpl. destruct (step_alerts env op w) as [Hkeep _].
    destruct (Hkeep i a Hi) as [s Hs].
    destruct (IH _ _ Hs) as [s' Hs']. exists s'. by rewrite Hs'.
Qed.

(** The active alert of a two-alert state after a resolving update, an
    analysis and a sweep: same alert, status [resolved]. *)
Lemma alerts_keep_all_but_status_example :
  alerts world_two_alerts !! 0%nat = Some active_alert
  ∧ alerts (run env_full
              [op_update_alert 1 (Some {[ "status" := PStr "resolved" ]});
               op_analyze (Some obs_threat); op_background_tick]
              world_two_alerts) !! 0%nat
    = Some (set_status active_alert "resolved")
  ∧ ∃ s, alerts (run env_full
                   [op_update_alert 1 (Some {[ "status" := PStr "resolved" ]});
                    op_analyze (Some obs_threat); op_background_tick]
                   world_two_alerts) !! 0%nat
         = Some (set_status active_alert s).
Proof.
  split; [reflexivity|]. split; [reflexivity|].
  exact (alerts_keep_all_but_status env_full _ world_two_alerts 0%nat active_alert
           eq_refl).
Defined.

(** X3.  [generate_alert] gives the new alert an id no existing alert
    carries: with ids counting the alerts, it appends one alert with status
    [active] and id one more than the number of alerts, returns that alert,
    and the ids still count the alerts. *)
Theorem generate_alert_fresh_id env (alert_data : AlertData) w :
  ids_sequential (alerts w) →
  ∃ alert,
    (generate_alert env alert_data w).2 = Ok alert
    ∧ alerts (generate_alert env alert_data w).1 = alerts w ++ [alert]
    ∧ alert_status alert = "active"
    ∧ alert_id alert = Z.of_nat (length (alerts w)) + 1
    ∧ (∀ a, a ∈ alerts w → alert_id a ≠ alert_id alert)
    ∧ ids_sequential (alerts (generate_alert env alert_data w).1).
Proof.
  intros Hids.
  destruct (generate_alert_alerts env alert_data w) as (Ha & Hr & _).
  exists (new_alert alert_data (length (alerts w)) (clock w)).
  split; [exact Hr|]. split; [exact Ha|]. split; [reflexivity|].
  split; [reflexivity|]. split.
  - intros a Hin. apply list_elem_of_lookup in Hin as [i Hi].
    rewrite (Hids i a Hi). apply lookup_lt_Some in Hi. simpl. lia.
  - rewrite Ha. intros i a Hi.
    destruct (decide (i < length (alerts w))%nat) as [Hlt|Hge].
    + rewrite lookup_app_l in Hi by done. by apply Hids.
    + rewrite lookup_app_r in Hi by lia.
      destruct (i - length (alerts w))%nat eqn:Hd; simpl in Hi; [|discriminate].
      injection Hi as <-. simpl. lia.
Qed.

(** With alerts 1 and 2 present, the alert generated from empty alert data
    gets id 3 and the defaults. *)
Lemma generate_alert_fresh_id_example :
  ids_sequential (alerts world_two_alerts)
  ∧ result_map (fun a => (alert_id a, alert_severity a, alert_type a, alert_status a))
      (generate_alert env_full
         {| ad_severity := None; ad_type := None; ad_description := None;
            ad_source_ip := None; ad_destination_ip := None |} world_two_alerts).2
    = Ok (3, "medium", "unknown", "active")
  ∧ ∃ alert,
      (generate_alert env_full
         {| ad_severity := None; ad_type := None; ad_description := None;
            ad_source_ip := None; ad_destination_ip := None |} world_two_alerts).2
      = Ok alert
      ∧ ∀ a, a ∈ alerts world_two_alerts → alert_id a ≠ alert_id alert.
Proof.
  assert (H0 : ids_sequential (alerts world_two_alerts)).
  { intros [|[|i]] a H; simpl in H; try discriminate; by injection H as <-. }
  split; [exact H0|]. split; [reflexivity|].
  destruct (generate_alert_fresh_id env_full
              {| ad_severity := None; ad_type := None; ad_description := None;
                 ad_source_ip := None; ad_destination_ip := None |}
              world_two_alerts H0) as (alert & Hr & _ & _ & _ & Hfresh & _).
  exists alert. split; [exact Hr | exact Hfresh].
Defined.

(** ** Status updates address alerts by position *)






(** ** What an analysis sends to the collaborators *)

Lemma generate_alert_calls env (alert_data : AlertData) w :
  calls (generate_alert env alert_data w).1
  = calls w
    ++ alert_calls env alert_data (new_alert alert_data (length (alerts w)) (clock w)).
Proof.
  unfold generate_alert, bind, get_world, py_now, modify, when, call, ret,
    alert_calls, event_of, new_alert.
  assert (Hsev : (match ad_severity alert_data with
                  | Some sev => if String.eqb sev "high" then 80 else 50
                  | None => 50
                  end)
                 = if bool_decide (ad_severity alert_data = Some "high")
                   then 80 else 50).
  { destruct (ad_severity alert_data) as [sev|]; [|reflexivity].
    destruct (String.eqb_spec sev "high") as [->|Hne]; [reflexivity|].
    rewrite bool_decide_eq_false_2; [reflexivity | congruence]. }
  rewrite <- Hsev.
  destruct (security_event env), (cache_manager env); simpl;
    rewrite <- ?app_assoc, ?app_nil_r; reflexivity.
Qed.

Lemma traffic_event_risk_score (d : pydict) score :
  event_risk_score (event_of (traffic_alert_data d score))
  = if bool_decide (score > 80) then 80 else 50.
Proof.
  unfold event_of, traffic_alert_data. cbn [event_risk_score ad_severity].
  by destruct (bool_decide (score > 80)).
Qed.

(** X5.  For a non-empty well-typed observation the analyze handler issues,
    in this order: the indicator lookup (when an address is given), the
    metric sample (with a database), and, when the score exceeds 50, the
    database mirror of the alert (with a database) and its publish on
    [security_alerts].  The mirrored event does not carry the computed score:
    its risk score is 80 for a score above 80 and 50 otherwise. *)
Theorem analyze_call_trace env (d : pydict) w :
  dict_truthy d = true →
  well_typed d = true →
  calls (analyze_network_traffic env (Some d) w).1
  = calls w
    ++ lookup_calls env d
    ++ metric_calls env d (sum_weights (triggered_rules env d))
    ++ (if bool_decide (sum_weights (triggered_rules env d) > 50)
        then alert_calls env
               (traffic_alert_data d (sum_weights (triggered_rules env d)))
               (new_alert (traffic_alert_data d (sum_weights (triggered_rules env d)))
                  (length (alerts w)) (clock w))
        else [])
  ∧ map event_risk_score (events_in (calls (analyze_network_traffic env (Some d) w).1))
    = map event_risk_score (events_in (calls w))
      ++ (if bool_decide (sum_weights (triggered_rules env d) > 50) && db_manager env
          then [if bool_decide (sum_weights (triggered_rules env d) > 80)
                then 80 else 50]
          else []).
Proof.
  intros Hd Hwt.
  assert (Hcalls : calls (analyze_network_traffic env (Some d) w).1
    = calls w ++ lookup_calls env d
      ++ metric_calls env d (sum_weights (triggered_rules env d))
      ++ (if bool_decide (sum_weights (triggered_rules env d) > 50)
          then alert_calls env
                 (traffic_alert_data d (sum_weights (triggered_rules env d)))
                 (new_alert (traffic_alert_data d (sum_weights (triggered_rules env d)))
                    (length (alerts w)) (clock w))
          else [])).
  { rewrite (analyze_network_traffic_run env d w Hd Hwt).
    rewrite (analyze_traffic_run env d w Hwt). cbn [fst].
    change (risk_score (assess env d (clock w)))
      with (sum_weights (triggered_rules env d)).
    destruct (bool_decide (sum_weights (triggered_rules env d) > 50)).
    - rewrite generate_alert_calls. cbn [calls alerts clock set_calls].
      by rewrite <- !app_assoc.
    - cbn [calls set_calls]. by rewrite app_nil_r. }
  split; [exact Hcalls|]. rewrite Hcalls.
  unfold events_in. rewrite !flat_map_app, !map_app.
  assert (Hl : flat_map (fun c => match c with create_event_call e => [e] | _ => [] end)
                 (lookup_calls env d) = []).
  { unfold lookup_calls. by destruct (_ && _). }
  assert (Hm : ∀ score,
             flat_map (fun c => match c with create_event_call e => [e] | _ => [] end)
               (metric_calls env d score) = []).
  { intros score. unfold metric_calls. by destruct (network_analytics env). }
  rewrite Hl, Hm. cbn [map app]. f_equal.
  destruct (bool_decide (sum_weights (triggered_rules env d) > 50)); [|reflexivity].
  unfold alert_calls, security_event. rewrite flat_map_app.
  destruct (db_manager env), (cache_manager env); cbn [flat_map app map andb];
    by rewrite ?traffic_event_risk_score.
Qed.

(** The known threat with 20 failed authentications scores 130; the event
    mirrored to the database carries 80. *)
Lemma analyze_call_trace_example :
  dict_truthy obs_threat = true
  ∧ well_typed obs_threat = true
  ∧ sum_weights (triggered_rules env_full obs_threat) = 130
  ∧ map event_risk_score
      (events_in (calls (analyze_network_traffic env_full (Some obs_threat)
                           (world0 0)).1))
    = [80].
Proof.
  split; [reflexivity|]. split; [reflexivity|]. split; [reflexivity|].
  destruct (analyze_call_trace env_full obs_threat (world0 0) eq_refl eq_refl)
    as [_ H].
  rewrite H. reflexivity.
Defined.

(** ** Who writes what *)

Lemma analyze_network_traffic_frame {X} (f : World -> X) env body :
  (∀ l w, f (set_calls l w) = f w) → (∀ l w, f (set_alerts l w) = f w) →
  preserves f (analyze_network_traffic env body).
Proof.
  intros Hc Ha.
  unfold analyze_network_traffic, analyze_traffic, score_traffic, store_analysis,
    generate_alert.
  repeat first
    [ apply preserves_ret | apply preserves_lift | apply preserves_get_world
    | apply preserves_py_now
    | apply preserves_bind; [|intros]
    | apply preserves_try_except; [|intros]
    | apply preserves_when
    | apply preserves_modify; intros; apply Ha
    | apply preserves_call; exact Hc
    | apply preserves_check_threat_indicator; exact Hc
    | match goal with
      | |- preserves _ (if ?c then _ else _) => destruct c
      | |- preserves _ (match ?x with _ => _ end) => destruct x
      end ].
Qed.

Lemma update_alert_frame {X} (f : World -> X) id body :
  (∀ l w, f (set_alerts l w) = f w) → preserves f (update_alert id body).
Proof.
  intros Ha. unfold update_alert.
  repeat first
    [ apply preserves_ret | apply preserves_raise | apply preserves_get_world
    | apply preserves_bind; [|intros]
    | apply preserves_try_except; [|intros]
    | apply preserves_modify; intros; apply Ha
    | match goal with
      | |- preserves _ (match ?x with _ => _ end) => destruct x
      end ].
Qed.

Lemma background_monitor_tick_state env w :
  network_stats (background_monitor_tick env w).1
  = set_last_updated (network_stats w) (clock w)
  ∧ threat_indicators (background_monitor_tick env w).1 = threat_indicators w
  ∧ calls (background_monitor_tick env w).1 = calls w.
Proof.
  unfold background_monitor_tick, try_except, bind, py_now, modify, when, py_sleep.
  destruct (cache_manager env); simpl; auto.
Qed.

Lemma step_frame env (op : Op) w :
  (writes_alerts op = false → alerts (step env op w) = alerts w)
  ∧ (writes_indicators op = false →
     threat_indicators (step env op w) = threat_indicators w)
  ∧ (writes_stats op = false → network_stats (step env op w) = network_stats w)
  ∧ (writes_cache op = false → cache (step env op w) = cache w)
  ∧ (moves_clock op = false → clock (step env op w) = clock w).
Proof.
  destruct op as [|body|status_arg|id body| |body|pattern_arg|]; cbn [step];
    repeat split; intros H; try discriminate H.
  all: try (apply analyze_network_traffic_frame; reflexivity).
  all: try (apply update_alert_frame; reflexivity).
  all: try apply (proj1 (proj2 (background_monitor_tick_state env w))).
  all: match goal with
       | |- ?f (?m ?w0).1 = ?f ?w0 => revert w0; change (preserves f m)
       end;
       unfold network_status, get_alerts, get_threat_indicators,
         add_threat_indicator, clear_cache; frame.
Qed.

(** X6.  Each part of the state has its writers: the alert list is written
    only by the analyze handler, the status update and the background
    monitor; the indicator list only by the indicator submission; the
    network statistics and the clock only by the background monitor; and the
    analyze handler, the alert listing and the status update never touch the
    cache. *)
Theorem state_writers env (op : Op) w :
  (writes_alerts op = false → alerts (step env op w) = alerts w)
  ∧ (writes_indicators op = false →
     threat_indicators (step env op w) = threat_indicators w)
  ∧ (writes_stats op = false → network_stats (step env op w) = network_stats w)
  ∧ (writes_cache op = false → cache (step env op w) = cache w)
  ∧ (moves_clock op = false → clock (step env op w) = clock w).
Proof.
  destruct (step_frame env op w) as (Ha & Hi & Hs & Hc & Ht).
  repeat split; assumption.
Qed.

(** The network statistics of a state with cache and alerts are the same
    after a status read, an analysis, an update and an invalidation. *)
Lemma state_writers_example :
  network_stats
    (run env_full
       [op_network_status; op_analyze (Some obs_threat);
        op_update_alert 1 (Some {[ "status" := PStr "resolved" ]});
        op_clear_cache None] world_cached)
  = network_stats world_cached
  ∧ cache (step env_full (op_analyze (Some obs_threat)) world_cached)
    = cache world_cached.
Proof.
  split; [reflexivity|].
  exact (proj1 (proj2 (proj2 (proj2
           (state_writers env_full (op_analyze (Some obs_threat)) world_cached))))
         eq_refl).
Defined.

(** X7.  The counters of the network statistics are never updated: after
    any sequence of operations [total_connections], [suspicious_connections]
    and [blocked_attempts] are what they were, so from start-up on they stay
    0; only [last_updated] moves, and only with the background monitor. *)
Theorem stats_counters_never_change env (ops : list Op) w :
  counters (network_stats (run env ops w)) = counters (network_stats w).
Proof.
  revert w. induction ops as [|op ops IH]; intros w; [reflexivity|].
  simpl. rewrite IH.
  destruct (writes_stats op) eqn:Hop.
  - destruct op; try discriminate Hop. cbn [step].
    by rewrite (proj1 (background_monitor_tick_state env w)).
  - by rewrite (proj1 (proj2 (proj2 (step_frame env op w))) Hop).
Qed.

(** After analyses, a sweep and a status read the counters of the start-up
    state are still 0 while [last_updated] has moved. *)
Lemma stats_counters_never_change_example :
  network_stats
    (run env_full
       [op_analyze (Some obs_threat); op_analyze (Some obs_volume_auth);
        op_background_tick; op_network_status] (world0 77))
  = {| total_connections := 0; suspicious_connections := 0;
       blocked_attempts := 0; last_updated := 77 |}
  ∧ counters (network_stats
                (run env_full
                   [op_analyze (Some obs_threat); op_analyze (Some obs_volume_auth);
                    op_background_tick; op_network_status] (world0 77)))
    = (0, 0, 0).
Proof.
  split; [reflexivity|].
  exact (stats_counters_never_change env_full _ (world0 77)).
Defined.

(** ** A raised alert in the listings *)

Lemma active_among_app (l1 l2 : list Alert) :
  active_among (l1 ++ l2) = active_among l1 + active_among l2.
Proof. unfold active_among. rewrite filter_app, length_app. lia. Qed.

Lemma network_status_active_alerts env w :
  ∃ stats src,
    (network_status env w).2
    = Ok ((status_json stats (active_among (alerts w)) (clock w), 200), src).
Proof.
  destruct (if cache_manager env
            then CacheManager.get_network_stats (cache w) (clock w) else None)
    as [s|] eqn:Hc.
  - destruct (cache_manager env) eqn:Hm; [|discriminate].
    rewrite (network_status_hit env w s Hm Hc). eauto.
  - rewrite (network_status_miss env w Hc). eauto.
Qed.

(** X8.  An alert raised by an analysis is visible at once: the listing of
    active alerts ends with it, and the count of active alerts in that
    listing and in the network status is one more than before, also when the
    statistics of the status come from the cache. *)
Theorem raised_alert_is_listed env (d : pydict) w :
  dict_truthy d = true →
  well_typed d = true →
  sum_weights (triggered_rules env d) > 50 →
  (get_alerts (Some "active") (analyze_network_traffic env (Some d) w).1).2
  = Ok (alerts_json
          (filter (fun a => alert_status a = "active") (alerts w)
           ++ [new_alert (traffic_alert_data d (sum_weights (triggered_rules env d)))
                 (length (alerts w)) (clock w)])
          (active_among (alerts w) + 1) (active_among (alerts w) + 1), 200)
  ∧ ∃ stats src,
      (network_status env (analyze_network_traffic env (Some d) w).1).2
      = Ok ((status_json stats (active_among (alerts w) + 1) (clock w), 200), src).
Proof.
  intros Hd Hwt Hscore.
  destruct (analyze_network_traffic_effects env d w Hd Hwt) as [Ha _].
  rewrite bool_decide_eq_true_2 in Ha by done.
  set (alert := new_alert _ _ _) in *.
  assert (Hn : active_among (alerts (analyze_network_traffic env (Some d) w).1)
               = active_among (alerts w) + 1).
  { rewrite Ha, active_among_app. reflexivity. }
  split.
  - unfold get_alerts, bind, get_world, ret. cbn [from_option id snd fst].
    change (String.eqb "active" "active") with true. cbv iota.
    rewrite count_active_among, Hn, filter_is_active.
    rewrite Ha. rewrite filter_app.
    replace (filter (fun a => alert_status a = "active") [alert]) with [alert]
      by reflexivity.
    rewrite length_app. cbn [length].
    do 3 f_equal. unfold active_among. lia.
  - destruct (network_status_active_alerts env
                (analyze_network_traffic env (Some d) w).1) as (stats & src & H).
    exists stats, src. rewrite H, Hn.
    by rewrite (analyze_network_traffic_frame clock env (Some d)).
Qed.

(** With a stale snapshot of the statistics in the cache and one active
    alert, the known threat raises a second one; the status then counts 2
    with the cached statistics. *)
Lemma raised_alert_is_listed_example :
  dict_truthy obs_threat = true
  ∧ well_typed obs_threat = true
  ∧ sum_weights (triggered_rules env_full obs_threat) > 50
  ∧ (network_status env_full
       (analyze_network_traffic env_full (Some obs_threat) world_cached).1).2
    = Ok ((status_json stats0 2 1000, 200), from_cache)
  ∧ ∃ stats src,
      (network_status env_full
         (analyze_network_traffic env_full (Some obs_threat) world_cached).1).2
      = Ok ((status_json stats (active_among (alerts world_cached) + 1)
               (clock world_cached), 200), src).
Proof.
  assert (Hs : sum_weights (triggered_rules env_full obs_threat) > 50)
    by (vm_compute; reflexivity).
  split; [reflexivity|]. split; [reflexivity|]. split; [exact Hs|].
  split; [reflexivity|].
  exact (proj2 (raised_alert_is_listed env_full obs_threat world_cached
                  eq_refl eq_refl Hs)).
Defined.

(** ** The background monitor over time *)

(** X9.  Right after a pass of the background monitor at time [now] no
    alert is both active and older than 24 hours. *)
Theorem no_overdue_active_alert_after_sweep env w (a : Alert) :
  a ∈ alerts (background_monitor_tick env w).1 →
  alert_status a = "active" →
  clock w - alert_timestamp a ≤ 24 * 3600 * 1000000.
Proof.
  intros Hin Hact.
  destruct (background_monitor_tick_alerts env w) as [Ha _]. rewrite Ha in Hin.
  unfold sweep_alerts in Hin. apply list_elem_of_fmap in Hin as (b & -> & _).
  unfold mark_stale, hours_24 in *.
  destruct (String.eqb (alert_status b) "active") eqn:Hb.
  - destruct (Z.ltb_spec (alert_timestamp b) (clock w - 24 * 3600 * 1000000));
      [discriminate Hact | lia].
  - rewrite Hact in Hb. discriminate.
Qed.

(** An active alert raised at time 5, swept at time 10: still active and
    younger than 24 hours. *)
Lemma no_overdue_active_alert_after_sweep_example :
  alerts (background_monitor_tick env_full world_young_alert).1
  = alerts world_young_alert
  ∧ ∀ a, a ∈ alerts world_young_alert →
      clock world_young_alert - alert_timestamp a ≤ 24 * 3600 * 1000000.
Proof.
  split; [reflexivity|]. intros a Ha.
  apply (no_overdue_active_alert_after_sweep env_full world_young_alert a).
  - exact Ha.
  - apply list_elem_of_singleton in Ha. by subst a.
Defined.

Lemma background_monitor_succ env (n : nat) w :
  background_monitor env (S n) w
  = background_monitor env n (background_monitor_tick env w).1.
Proof.
  cbn [background_monitor]. unfold bind.
  unfold background_monitor_tick, try_except, bind, py_now, modify, when, py_sleep.
  destruct (cache_manager env); reflexivity.
Qed.

Lemma background_monitor_keeps_inactive env (n : nat) w (i : nat) (b : Alert) :
  alerts w !! i = Some b → alert_status b ≠ "active" →
  alerts (background_monitor env n w).1 !! i = Some b.
Proof.
  revert w. induction n as [|n IH]; intros w Hi Hb; [exact Hi|].
  rewrite background_monitor_succ. apply IH; [|exact Hb].
  destruct (background_monitor_tick_alerts env w) as [-> _]. unfold sweep_alerts.
  rewrite list_lookup_fmap, Hi. simpl. unfold mark_stale.
  destruct (String.eqb_spec (alert_status b) "active"); [contradiction | reflexivity].
Qed.



(** ** Threat indicators *)

Lemma first_missing_spec (d : pydict) :
  first_missing d ["type"; "value"; "description"]
  = match d !! "type", d !! "value", d !! "description" with
    | None, _, _ => Some "type"
    | Some _, None, _ => Some "value"
    | Some _, Some _, None => Some "description"
    | Some _, Some _, Some _ => None
    end.
Proof.
  unfold first_missing. cbn [find].
  destruct (d !! "type"), (d !! "value"), (d !! "description"); reflexivity.
Qed.

Lemma add_threat_indicator_run env (d : pydict) w :
  add_threat_indicator env (Some d) w
  = match first_missing d ["type"; "value"; "description"] with
    | Some field => (w, Ok (error_json ("Missing required field: " +:+ field), 400))
    | None =>
        (set_cache
           (if cache_manager env
            then (CacheManager.set (cache w) CacheManager.indicators_key
                    (CacheManager.indicators_value
                       (threat_indicators w
                        ++ [new_indicator d (length (threat_indicators w)) (clock w)]))
                    (clock w) (indicators_ttl env)).1
            else cache w)
           (set_calls
              (calls w ++ if threat_intelligence env then [add_indicator_call d] else [])
              (set_threat_indicators
                 (threat_indicators w
                  ++ [new_indicator d (length (threat_indicators w)) (clock w)]) w)),
         Ok (indicator_json (new_indicator d (length (threat_indicators w)) (clock w)),
             201))
    end.
Proof.
  rewrite first_missing_spec. unfold add_threat_indicator, try_except.
  unfold bind at 1. cbn [ret]. rewrite first_missing_spec.
  unfold new_indicator, py_get, py_index.
  destruct (d !! "type") as [ty|]; [|reflexivity].
  destruct (d !! "value") as [value|]; [|reflexivity].
  destruct (d !! "description") as [description|]; [|reflexivity].
  unfold bind, get_world, py_now, lift, modify, when, call, ret.
  destruct (threat_intelligence env), (cache_manager env); cbn;
    rewrite ?app_nil_r; try reflexivity; by destruct w.
Qed.

(** X11.  An indicator submission lacking a required field is answered with
    400 naming the first missing one in the order [type], [value],
    [description], and changes nothing (no indicator, no database call, no
    cache write); a field counts as present when its key is, whatever its
    value. *)
Theorem add_threat_indicator_missing_field env (d : pydict) w :
  (d !! "type" = None →
   add_threat_indicator env (Some d) w
   = (w, Ok (error_json "Missing required field: type", 400)))
  ∧ (is_Some (d !! "type") → d !! "value" = None →
     add_threat_indicator env (Some d) w
     = (w, Ok (error_json "Missing required field: value", 400)))
  ∧ (is_Some (d !! "type") → is_Some (d !! "value") → d !! "description" = None →
     add_threat_indicator env (Some d) w
     = (w, Ok (error_json "Missing required field: description", 400)))
  ∧ (is_Some (d !! "type") → is_Some (d !! "value") → is_Some (d !! "description") →
     (add_threat_indicator env (Some d) w).2
     = Ok (indicator_json (new_indicator d (length (threat_indicators w)) (clock w)),
           201)).
Proof.
  rewrite add_threat_indicator_run, first_missing_spec.
  repeat split.
  - by intros ->.
  - by intros [? ->] ->.
  - by intros [? ->] [? ->] ->.
  - by intros [? ->] [? ->] [? ->].
Qed.

(** A submission without description is turned away; one whose required
    fields are all [null] is accepted. *)
Lemma add_threat_indicator_missing_field_example :
  add_threat_indicator env_full (Some indicator_no_description) (world0 0)
  = (world0 0, Ok (error_json "Missing required field: description", 400))
  ∧ (add_threat_indicator env_full (Some indicator_nulls) (world0 0)).2
    = Ok (indicator_json
            {| ind_id := 1; ind_timestamp := 0; ind_type := PNone; ind_value := PNone;
               ind_description := PNone; ind_confidence := PStr "medium";
               ind_active := true |}, 201).
Proof.
  destruct (add_threat_indicator_missing_field env_full indicator_no_description
              (world0 0)) as (_ & _ & H3 & _).
  destruct (add_threat_indicator_missing_field env_full indicator_nulls (world0 0))
    as (_ & _ & _ & H4).
  split.
  - apply H3; [by eexists | by eexists | reflexivity].
  - rewrite H4; [reflexivity | by eexists ..].
Defined.

Lemma add_threat_indicator_indicators env body w :
  threat_indicators (add_threat_indicator env body w).1 = threat_indicators w
  ∨ ∃ d, body = Some d
      ∧ threat_indicators (add_threat_indicator env body w).1
        = threat_indicators w
          ++ [new_indicator d (length (threat_indicators w)) (clock w)].
Proof.
  destruct body as [d|]; [|by left].
  rewrite add_threat_indicator_run.
  destruct (first_missing d ["type"; "value"; "description"]); [by left|].
  right. exists d. split; reflexivity.
Qed.

(** X12.  A submission with the three required fields is answered with 201
    and appends exactly one indicator: numbered one more than the number of
    indicators, active, stamped with the current time, with the submitted
    type, value and description and the confidence [medium] unless one is
    given.  The database is called once when one is configured and not at
    all otherwise; alerts and statistics are untouched. *)
Theorem add_threat_indicator_appends env (d : pydict) w ty value description :
  d !! "type" = Some ty →
  d !! "value" = Some value →
  d !! "description" = Some description →
  (add_threat_indicator env (Some d) w).2
  = Ok (indicator_json
          {| ind_id := Z.of_nat (length (threat_indicators w)) + 1;
             ind_timestamp := clock w;
             ind_type := ty; ind_value := value; ind_description := description;
             ind_confidence := default (PStr "medium") (d !! "confidence");
             ind_active := true |}, 201)
  ∧ threat_indicators (add_threat_indicator env (Some d) w).1
    = threat_indicators w
      ++ [ {| ind_id := Z.of_nat (length (threat_indicators w)) + 1;
              ind_timestamp := clock w;
              ind_type := ty; ind_value := value; ind_description := description;
              ind_confidence := default (PStr "medium") (d !! "confidence");
              ind_active := true |} ]
  ∧ calls (add_threat_indicator env (Some d) w).1
    = calls w ++ (if db_manager env then [add_indicator_call d] else [])
  ∧ alerts (add_threat_indicator env (Some d) w).1 = alerts w
  ∧ network_stats (add_threat_indicator env (Some d) w).1 = network_stats w.
Proof.
  intros Ht Hv Hd.
  rewrite add_threat_indicator_run, first_missing_spec, Ht, Hv, Hd.
  unfold new_indicator, py_get, py_get_default, threat_intelligence.
  rewrite Ht, Hv, Hd. cbn. repeat split; reflexivity.
Qed.

(** The first indicator submitted after start-up. *)
Lemma add_threat_indicator_appends_example :
  (add_threat_indicator env_no_db
     (Some (<[ "description" := PStr "scanner" ]> indicator_no_description))
     (world0 3)).2
  = Ok (indicator_json
          {| ind_id := 1; ind_timestamp := 3; ind_type := PStr "ip";
             ind_value := PStr "1.2.3.4"; ind_description := PStr "scanner";
             ind_confidence := PStr "high"; ind_active := true |}, 201)
  ∧ calls (add_threat_indicator env_no_db
             (Some (<[ "description" := PStr "scanner" ]> indicator_no_description))
             (world0 3)).1
    = [].
Proof.
  destruct (add_threat_indicator_appends env_no_db
              (<[ "description" := PStr "scanner" ]> indicator_no_description)
              (world0 3) (PStr "ip") (PStr "1.2.3.4") (PStr "scanner"))
    as (Hr & _ & Hc & _); try reflexivity.
  split; [exact Hr | exact Hc].
Defined.

Lemma step_indicator_ids_sequential env (op : Op) w :
  indicator_ids_sequential (threat_indicators w) →
  indicator_ids_sequential (threat_indicators (step env op w)).
Proof.
  intros Hids.
  destruct (writes_indicators op) eqn:Hop.
  - destruct op as [| | | | |body| |]; try discriminate Hop. cbn [step].
    destruct (add_threat_indicator_indicators env body w) as [->|(d & _ & ->)];
      [exact Hids|].
    intros i x Hi.
    destruct (decide (i < length (threat_indicators w))%nat) as [Hlt|Hge].
    + rewrite lookup_app_l in Hi by done. by apply Hids.
    + rewrite lookup_app_r in Hi by lia.
      destruct (i - length (threat_indicators w))%nat eqn:Hd; simpl in Hi;
        [|discriminate].
      injection Hi as <-. simpl. lia.
  - by rewrite (proj1 (proj2 (step_frame env op w)) Hop).
Qed.

(** X13.  Indicator ids count the indicators: if the indicator at each
    position [i] has id [i + 1] (as in the empty list at start-up), this is
    still so after any sequence of operations; no operation removes or
    renumbers an indicator. *)
Theorem indicator_ids_stay_sequential env (ops : list Op) w :
  indicator_ids_sequential (threat_indicators w) →
  indicator_ids_sequential (threat_indicators (run env ops w)).
Proof.
  revert w. induction ops as [|op ops IH]; intros w H; [exact H|].
  simpl. apply IH. by apply step_indicator_ids_sequential.
Qed.

(** Two accepted submissions around a rejected one get the ids 1 and 2. *)
Lemma indicator_ids_stay_sequential_example :
  indicator_ids_sequential (threat_indicators (world0 0))
  ∧ map ind_id
      (threat_indicators
         (run env_full
            [op_add_threat_indicator (Some indicator_nulls);
             op_add_threat_indicator (Some indicator_no_description);
             op_add_threat_indicator (Some indicator_nulls)] (world0 0)))
    = [1; 2]
  ∧ indicator_ids_sequential
      (threat_indicators
         (run env_full
            [op_add_threat_indicator (Some indicator_nulls);
             op_add_threat_indicator (Some indicator_no_description);
             op_add_threat_indicator (Some indicator_nulls)] (world0 0))).
Proof.
  assert (H0 : indicator_ids_sequential (threat_indicators (world0 0)))
    by (intros i x H; discriminate).
  split; [exact H0|]. split; [reflexivity|].
  exact (indicator_ids_stay_sequential env_full _ (world0 0) H0).
Defined.

(** ** Which observations the analyze handler accepts *)

Lemma score_traffic_result env (d : pydict) w :
  if counters_comparable d
  then ∃ a, (score_traffic env d w).2 = Ok a
  else (score_traffic env d w).2 = Raise TypeError.
Proof.
  unfold counters_comparable, score_traffic, bind, py_now, lift, ret,
    check_threat_indicator, py_index, py_get.
  destruct (cache_manager env); cbn [andb];
  destruct (d !! "source_ip"); cbn [from_option id truthy];
  repeat match goal with
         | |- context [truthy ?v] => destruct (truthy v)
         | |- context [threat_lookup env ?v] => destruct (threat_lookup env v)
         end;
  destruct (py_get_default d "connection_count" (PInt 0)) as [|[]| | |];
  destruct (py_get_default d "failed_auth_attempts" (PInt 0)) as [|[]| | |];
  cbn; eauto.
Qed.

(** X14.  For a non-empty observation whose values are [null], booleans,
    integers, strings or lists of integers: when [connection_count] and
    [failed_auth_attempts] are each absent, an integer or a boolean, the
    analyze handler answers 200 with an assessment, whichever of these kinds
    the address fields and [unusual_ports] have; when one of the two is
    [null], a string or a list, the comparison raises and the answer is 500
    [Internal server error], with no alert created and no metric sample
    recorded. *)
Theorem analyze_counters_comparable_or_500 env (d : pydict) w :
  dict_truthy d = true →
  (counters_comparable d = true →
   ∃ a, (analyze_network_traffic env (Some d) w).2 = Ok (analysis_json a, 200))
  ∧ (counters_comparable d = false →
     (analyze_network_traffic env (Some d) w).2
     = Ok (error_json "Internal server error", 500)
     ∧ alerts (analyze_network_traffic env (Some d) w).1 = alerts w
     ∧ metrics_in (calls (analyze_network_traffic env (Some d) w).1)
       = metrics_in (calls w)).
Proof.
  intros Hd.
  pose proof (score_traffic_result env d w) as Hs.
  destruct (analyze_traffic_split env d w) as [Hr Hw].
  assert (Hrun : analyze_network_traffic env (Some d) w
                 = try_except
                     (analysis <- analyze_traffic env d ;;
                      when (50 <? risk_score analysis)
                        (generate_alert env
                           {| ad_severity :=
                                Some (if 80 <? risk_score analysis
                                      then "high" else "medium");
                              ad_type := Some "traffic_analysis";
                              ad_description :=
                                Some ("High risk traffic detected (score: "
                                      +:+ pretty (risk_score analysis) +:+ ")");
                              ad_source_ip :=
                                Some (py_get_default d "source_ip" (PStr "unknown"));
                              ad_destination_ip :=
                                Some (py_get_default d "destination_ip"
                                        (PStr "unknown")) |} ;;;
                         ret tt) ;;;
                      ret (analysis_json analysis, 200))
                     (fun _ => ret (error_json "Internal server error", 500)) w).
  { unfold analyze_network_traffic. unfold try_except at 1. by rewrite Hd. }
  destruct (counters_comparable d); split; intros Hc; try discriminate Hc.
  - rewrite Hrun. unfold try_except, bind at 1.
    destruct Hs as [a Ha]. rewrite Ha in Hr.
    destruct (analyze_traffic env d w) as [w1 r1]. simpl in Hr. subst r1.
    unfold when. destruct (50 <? risk_score a).
    + unfold bind.
      match goal with |- context [generate_alert ?e ?ad ?w0] =>
        pose proof (generate_alert_alerts e ad w0) as (_ & Hg & _);
        destruct (generate_alert e ad w0) as [w2 r2] end.
      simpl in Hg. subst r2. simpl. eauto.
    + simpl. eauto.
  - rewrite Hs in Hr, Hw.
    assert (Hfull : analyze_network_traffic env (Some d) w
                    = ((analyze_traffic env d w).1,
                       Ok (error_json "Internal server error", 500))).
    { rewrite Hrun. unfold try_except, bind at 1.
      destruct (analyze_traffic env d w) as [w1 r1]. simpl in Hr. by subst r1. }
    rewrite Hfull, Hw. cbn [fst snd calls alerts set_calls].
    split; [reflexivity|]. split; [reflexivity|].
    unfold metrics_in, lookup_calls. rewrite !flat_map_app.
    destruct (cache_manager env && truthy (py_get d "source_ip")); simpl;
      by rewrite app_nil_r.
Qed.

(** An observation with a number as address, a string as port list and a
    boolean as connection count is analysed; a [null] as failed
    authentication count is refused with 500. *)
Lemma analyze_counters_comparable_or_500_example :
  dict_truthy obs_odd_types = true
  ∧ counters_comparable obs_odd_types = true
  ∧ (analyze_network_traffic env_full (Some obs_odd_types) (world0 0)).2
    = Ok (analysis_json
            {| timestamp := 0; risk_score := 20;
               threats_detected := ["Unusual port activity detected"];
               recommendations := ["Review firewall rules and port access"] |}, 200)
  ∧ counters_comparable obs_null_counter = false
  ∧ (analyze_network_traffic env_full (Some obs_null_counter) (world0 0)).2
    = Ok (error_json "Internal server error", 500).
Proof.
  split; [reflexivity|]. split; [reflexivity|]. split; [reflexivity|].
  split; [reflexivity|].
  destruct (analyze_counters_comparable_or_500 env_full obs_null_counter (world0 0)
              eq_refl) as [_ H].
  exact (proj1 (H eq_refl)).
Defined.

(** ** Status updates and the sweep *)

(** X15.  An alert whose status is not [active] ([investigating],
    [resolved] or [stale]) is left exactly as it is by any number of passes
    of the background monitor, however old it is. *)
Theorem background_monitor_leaves_handled_alerts
    env (n : nat) w (i : nat) (b : Alert) :
  alerts w !! i = Some b →
  alert_status b ≠ "active" →
  alerts (background_monitor env n w).1 !! i = Some b.
Proof. intros Hi Hb. by apply background_monitor_keeps_inactive. Qed.

(** The resolved alert of the two-alert state after 3000 passes (more
    than two days). *)
Lemma background_monitor_leaves_handled_alerts_example :
  alerts world_two_alerts !! 1%nat
  = alerts (background_monitor env_full 3000 world_two_alerts).1 !! 1%nat
  ∧ map alert_status (alerts (background_monitor env_full 3000 world_two_alerts).1)
    = ["stale"; "resolved"].
Proof.
  split; [|vm_compute; reflexivity].
  destruct (alerts world_two_alerts !! 1%nat) as [b|] eqn:Hb; [|discriminate].
  symmetry.
  apply (background_monitor_leaves_handled_alerts env_full 3000 world_two_alerts
           1%nat b Hb).
  injection Hb as <-. discriminate.
Defined.



(** ** Listing indicators after a submission *)

Lemma get_threat_indicators_run env w :
  (get_threat_indicators env w).2
  = Ok (indicators_json
          (match (if cache_manager env
                  then CacheManager.get_threat_indicators (cache w) (clock w)
                  else []) with
           | [] => threat_indicators w
           | cached => cached
           end)
          (Z.of_nat
             (length
                (match (if cache_manager env
                        then CacheManager.get_threat_indicators (cache w) (clock w)
                        else []) with
                 | [] => threat_indicators w
                 | cached => cached
                 end))), 200).
Proof.
  unfold get_threat_indicators, bind, get_world, py_now, when, modify, ret.
  destruct (if cache_manager env
            then CacheManager.get_threat_indicators (cache w) (clock w) else [])
    as [|x l]; [|reflexivity].
  destruct (cache_manager env); reflexivity.
Qed.

(** X17.  The indicator list is written through: right after an accepted
    submission the listing shows every indicator held in memory, the new one
    last, with the matching total, whether the entry comes back from the
    cache, the cache backend is unreachable, or there is no cache manager
    (the cache being the key/value store modelled above, with a positive
    lifetime for the indicator entry). *)
Theorem submitted_indicator_is_listed env (d : pydict) w ty value description :
  d !! "type" = Some ty →
  d !! "value" = Some value →
  d !! "description" = Some description →
  0 < indicators_ttl env →
  (get_threat_indicators env (add_threat_indicator env (Some d) w).1).2
  = Ok (indicators_json
          (threat_indicators w
           ++ [new_indicator d (length (threat_indicators w)) (clock w)])
          (Z.of_nat (length (threat_indicators w)) + 1), 200).
Proof.
  intros Ht Hv Hd Httl.
  rewrite get_threat_indicators_run.
  rewrite add_threat_indicator_run, first_missing_spec, Ht, Hv, Hd.
  cbn [fst cache clock threat_indicators set_cache set_calls set_threat_indicators].
  set (l := threat_indicators w ++ _).
  assert (Hlen : Z.of_nat (length l) = Z.of_nat (length (threat_indicators w)) + 1).
  { subst l. rewrite length_app. cbn [length]. lia. }
  match goal with
  | |- context [match ?c with [] => l | _ => _ end] =>
      assert (Hc : c = [] ∨ c = l)
  end.
  { destruct (cache_manager env); [|by left].
    unfold CacheManager.get_threat_indicators, CacheManager.get, CacheManager.set.
    destruct (CacheManager.reachable (cache w)) eqn:Hr; cbn [fst];
      cbn [CacheManager.reachable CacheManager.entries].
    - right. rewrite lookup_insert_eq.
      by rewrite (proj2 (Z.ltb_lt (clock w) (clock w + indicators_ttl env)))
        by lia.
    - left. by rewrite Hr. }
  destruct Hc as [Hc|Hc]; rewrite Hc; [by rewrite Hlen|].
  assert (Hl : match l with [] => l | x :: r => x :: r end = l) by (by destruct l).
  by rewrite Hl, Hlen.
Qed.

(** After two submissions, with the cache reachable, the listing shows both
    indicators. *)
Lemma submitted_indicator_is_listed_example :
  0 < indicators_ttl env_full
  ∧ (get_threat_indicators env_full
       (add_threat_indicator env_full (Some indicator_nulls)
          (add_threat_indicator env_full (Some indicator_nulls) (world0 0)).1).1).2
    = Ok (indicators_json
            [new_indicator indicator_nulls 0 0; new_indicator indicator_nulls 1 0]
            2, 200).
Proof.
  assert (Httl : 0 < indicators_ttl env_full) by (simpl; lia).
  split; [exact Httl|].
  rewrite (submitted_indicator_is_listed env_full indicator_nulls
             (add_threat_indicator env_full (Some indicator_nulls) (world0 0)).1
             PNone PNone PNone eq_refl eq_refl eq_refl Httl).
  reflexivity.
Defined.

(** ** The states reachable from start-up *)

Lemma analyze_network_traffic_alert_shape env body w :
  alerts (analyze_network_traffic env body w).1 = alerts w
  ∨ ∃ alert,
      alerts (analyze_network_traffic env body w).1 = alerts w ++ [alert]
      ∧ alert_well_formed alert.
Proof.
  unfold analyze_network_traffic, try_except.
  destruct body as [d|]; [|by left].
  destruct (dict_truthy d); cbn [negb]; [|by left].
  unfold bind.
  pose proof (analyze_traffic_preserves_alerts env d w) as Ha.
  destruct (analyze_traffic env d w) as [w1 [a|e]]; simpl in Ha; [|by left].
  unfold when. destruct (50 <? risk_score a); [|by left].
  unfold bind.
  match goal with |- context [generate_alert ?e ?ad ?w0] =>
    pose proof (generate_alert_alerts e ad w0) as (Hg & Hr & _);
    destruct (generate_alert e ad w0) as [w2 r2] end.
  simpl in Hg, Hr. subst r2. simpl. right. rewrite Hg, Ha.
  eexists. split; [reflexivity|].
  unfold alert_well_formed, new_alert. cbn.
  split; [|split; [|reflexivity]].
  - rewrite !elem_of_cons. auto.
  - destruct (80 <? risk_score a); rewrite !elem_of_cons; auto.
Qed.

Lemma set_status_well_formed (a : Alert) (s : string) :
  alert_well_formed a →
  s ∈ ["active"; "resolved"; "investigating"; "stale"] →
  alert_well_formed (set_status a s).
Proof. intros (_ & Hsev & Hty) Hs. by split. Qed.

Lemma step_alerts_well_formed env (op : Op) w :
  Forall alert_well_formed (alerts w) →
  Forall alert_well_formed (alerts (step env op w)).
Proof.
  intros Hwf.
  destruct (writes_alerts op) eqn:Hop;
    [|by rewrite (proj1 (step_frame env op w) Hop)].
  destruct op as [|body| |id body| | | |]; try discriminate Hop; cbn [step].
  - destruct (analyze_network_traffic_alert_shape env body w)
      as [->|(alert & -> & Ha)]; [exact Hwf|].
    apply Forall_app. split; [exact Hwf | by apply Forall_singleton].
  - destruct (update_alert_alerts id body w) as [->|(s & found & Hs & Hu)];
      [exact Hwf|].
    apply Forall_lookup. intros i b' Hb.
    destruct (update_first_lookup _ _ _ _ _ Hu i b' Hb) as (b & Hb0 & [->| ->]).
    + by eapply (proj1 (Forall_lookup _ _) Hwf).
    + apply set_status_well_formed; [by eapply (proj1 (Forall_lookup _ _) Hwf)|].
      apply legal_status_elem in Hs as [_ [->|[->| ->]]]; rewrite !elem_of_cons; auto.
  - destruct (background_monitor_tick_alerts env w) as [-> _]. unfold sweep_alerts.
    apply Forall_fmap. eapply Forall_impl; [exact Hwf|].
    intros a Ha. cbn. unfold mark_stale.
    destruct (String.eqb (alert_status a) "active"); [|exact Ha].
    destruct (alert_timestamp a <? clock w - hours_24); [|exact Ha].
    apply set_status_well_formed; [exact Ha|]. rewrite !elem_of_cons. auto.
Qed.

(** X18.  In every state reached from start-up by any sequence of
    operations: alert ids and indicator ids count their lists from 1 in
    insertion order; every alert has a status among [active], [resolved],
    [investigating] and [stale], a severity [high] or [medium] and the type
    [traffic_analysis]; and the three counters of the network statistics are
    0. *)
Theorem reachable_state_invariants env (ops : list Op) (t : Z) (c : CacheManager.t) :
  ids_sequential (alerts (run env ops (startup t c)))
  ∧ indicator_ids_sequential (threat_indicators (run env ops (startup t c)))
  ∧ Forall alert_well_formed (alerts (run env ops (startup t c)))
  ∧ counters (network_stats (run env ops (startup t c))) = (0, 0, 0).
Proof.
  assert (Hinv : ∀ w,
            ids_sequential (alerts w)
            ∧ indicator_ids_sequential (threat_indicators w)
            ∧ Forall alert_well_formed (alerts w)
            ∧ counters (network_stats w) = (0, 0, 0) →
            ids_sequential (alerts (run env ops w))
            ∧ indicator_ids_sequential (threat_indicators (run env ops w))
            ∧ Forall alert_well_formed (alerts (run env ops w))
            ∧ counters (network_stats (run env ops w)) = (0, 0, 0)).
  { induction ops as [|op ops IH]; intros w H; [exact H|].
    simpl. apply IH. destruct H as (H1 & H2 & H3 & H4).
    split; [by apply step_ids_sequential|].
    split; [by apply step_indicator_ids_sequential|].
    split; [by apply step_alerts_well_formed|].
    rewrite <- H4.
    destruct (writes_stats op) eqn:Hop.
    - destruct op; try discriminate Hop. cbn [step].
      by rewrite (proj1 (background_monitor_tick_state env w)).
    - by rewrite (proj1 (proj2 (proj2 (step_frame env op w))) Hop). }
  apply Hinv. split; [intros i a H; discriminate|].
  split; [intros i x H; discriminate|].
  split; [constructor | reflexivity].
Qed.

(** A run from start-up with analyses, submissions, an update and sweeps
    over two days. *)
Lemma reachable_state_invariants_example :
  map (fun a => (alert_id a, alert_severity a, alert_status a))
    (alerts (run env_full
               [op_analyze (Some obs_threat); op_analyze (Some obs_auth);
                op_analyze (Some obs_volume_auth);
                op_add_threat_indicator (Some indicator_nulls);
                op_update_alert 2 (Some {[ "status" := PStr "investigating" ]});
                op_background_tick; op_network_status]
               (startup (2 * hours_24) cache0)))
  = [(1, "high", "active"); (2, "medium", "investigating")]
  ∧ ids_sequential
      (alerts (run env_full
                 [op_analyze (Some obs_threat); op_analyze (Some obs_auth);
                  op_analyze (Some obs_volume_auth);
                  op_add_threat_indicator (Some indicator_nulls);
                  op_update_alert 2 (Some {[ "status" := PStr "investigating" ]});
                  op_background_tick; op_network_status]
                 (startup (2 * hours_24) cache0))).
Proof.
  split; [vm_compute; reflexivity|].
  exact (proj1 (reachable_state_invariants env_full _ (2 * hours_24) cache0)).
Defined.
